(** * KPI entries: scoring engine, CSV migration and rankings

    A shallow embedding of the TypeScript services of the KPI backend
    ([kpi_entry.model.ts], [kpi_entry.migration.ts], [kpi_entry.service.ts],
    [kpi_entry.statistics.ts]) together with the properties their
    specification states about them.

    Conventions of the embedding.
    - A JavaScript string is the list of its UTF-16 code units ([jsstring]).
    - A JavaScript number is a rational ([Q]); NaN and the infinities are not
      numbers of the embedding, and an operation whose JavaScript result
      depends on implicit coercions or on an inconsistent sort comparator
      yields [Unmodelled].  Arithmetic results are kept in lowest terms.
    - [throw] is the [Thrown] outcome; [try]/[catch] is a match on it.
    - The document store and the identity service are explicit arguments. *)

From Stdlib Require Import List String Ascii ZArith NArith QArith Qround Lia Bool.
From Stdlib Require Import Permutation Sorted.
Import ListNotations.

Set Implicit Arguments.

(* ================================================================== *)
(** ** JavaScript strings *)

Definition jsstring := list N.

(** UTF-8 bytes of a source literal to UTF-16 code units. *)
Fixpoint utf8_units (bs : list N) : jsstring :=
  match bs with
  | [] => []
  | b0 :: r0 =>
    if (b0 <? 128)%N then b0 :: utf8_units r0
    else if (b0 <? 192)%N then 65533%N :: utf8_units r0
    else if (b0 <? 224)%N then
      match r0 with
      | b1 :: r1 => ((b0 - 192) * 64 + (b1 - 128))%N :: utf8_units r1
      | [] => [65533%N]
      end
    else if (b0 <? 240)%N then
      match r0 with
      | b1 :: b2 :: r2 =>
        ((b0 - 224) * 4096 + (b1 - 128) * 64 + (b2 - 128))%N :: utf8_units r2
      | _ => [65533%N]
      end
    else
      match r0 with
      | b1 :: b2 :: b3 :: r3 =>
        let cp := ((b0 - 240) * 262144 + (b1 - 128) * 4096
                   + (b2 - 128) * 64 + (b3 - 128) - 65536)%N in
        (55296 + cp / 1024)%N :: (56320 + cp mod 1024)%N :: utf8_units r3
      | _ => [65533%N]
      end
  end.

Definition js (s : string) : jsstring :=
  utf8_units (map N_of_ascii (list_ascii_of_string s)).

Fixpoint jseqb (a b : jsstring) : bool :=
  match a, b with
  | [], [] => true
  | x :: a', y :: b' => (x =? y)%N && jseqb a' b'
  | _, _ => false
  end.

Definition isEmpty (s : jsstring) : bool :=
  match s with [] => true | _ => false end.

(** WhiteSpace and LineTerminator code units, as stripped by [String.prototype.trim]. *)
Definition isWhiteSpace (c : N) : bool :=
  ((9 <=? c) && (c <=? 13) || (c =? 32) || (c =? 160) || (c =? 5760)
   || (8192 <=? c) && (c <=? 8202) || (c =? 8232) || (c =? 8233)
   || (c =? 8239) || (c =? 8287) || (c =? 12288) || (c =? 65279))%N.

Fixpoint trimStart (s : jsstring) : jsstring :=
  match s with
  | c :: r => if isWhiteSpace c then trimStart r else s
  | [] => []
  end.

Definition trim (s : jsstring) : jsstring :=
  rev (trimStart (rev (trimStart s))).

Fixpoint startsWith (s p : jsstring) {struct p} : bool :=
  match p, s with
  | [], _ => true
  | x :: p', y :: s' => (x =? y)%N && startsWith s' p'
  | _ :: _, [] => false
  end.

(** [s.includes(sub)] *)
Fixpoint includes (s sub : jsstring) : bool :=
  startsWith s sub ||
  match s with
  | [] => false
  | _ :: r => includes r sub
  end.

(** [s.split(sep)] for a one-unit separator: never the empty list. *)
Fixpoint split (sep : N) (s : jsstring) : list jsstring :=
  match s with
  | [] => [[]]
  | c :: r =>
    if (c =? sep)%N then [] :: split sep r
    else match split sep r with
         | f :: fs => (c :: f) :: fs
         | [] => [[c]]
         end
  end.

Definition comma : N := 44.
Definition newline : N := 10.

(** The ASCII part of [toLowerCase]; every other code unit is kept. *)
Definition asciiLower (s : jsstring) : jsstring :=
  map (fun c => if ((65 <=? c) && (c <=? 90))%N then (c + 32)%N else c) s.

(** [arr.findIndex(p)]: [None] stands for -1. *)
Fixpoint findIndex {A} (p : A -> bool) (l : list A) : option nat :=
  match l with
  | [] => None
  | x :: r => if p x then Some O
              else match findIndex p r with
                   | Some i => Some (S i)
                   | None => None
                   end
  end.

(** [arr.indexOf(s)] on an array of strings. *)
Definition indexOf (l : list jsstring) (s : jsstring) : option nat :=
  findIndex (jseqb s) l.

(* ================================================================== *)
(** ** JavaScript numbers *)

Definition num_ltb (a b : Q) : bool := negb (Qle_bool b a).
Definition num_add (a b : Q) : Q := Qred (a + b).
Definition num_mul (a b : Q) : Q := Qred (a * b).
Definition num_div (a b : Q) : Q := Qred (a / b).
(** [Math.min(a, b)] *)
Definition num_min (a b : Q) : Q := if Qle_bool a b then a else b.
(** [Math.round(x)]: the nearest integer, halves upwards. *)
Definition num_round (x : Q) : Q := inject_Z (Qfloor (x + (1 # 2))).
Definition num_sum (l : list Q) : Q := fold_left num_add l 0.

(* ================================================================== *)
(** ** Outcomes: return, throw, or outside the embedding *)

Inductive ErrorMsg : Type :=
| ItemNotInTemplate (name : jsstring)
| ExpectsNumeric (name : jsstring)
| CannotBeNegative (name : jsstring)
| PercentageOutOfRange (name : jsstring)
| ExpectsYesNoString (name : jsstring)
| ExpectsString (name : jsstring)
| ScoreOutOfRange (name : jsstring) (maxMarks : Q)
| UnknownKpiType (tag : jsstring)
| InvalidKpiItems (names : list jsstring)
| MissingKpiItems (names : list jsstring)
| NoParserConfig (key : jsstring)
| NoOfficerNameColumn
| OfficerNameColumnNotFound (header : jsstring)
| TypeErrorUndefined
| TemplateNotFound
| EntryNotFound
| EntryTemplateNotFound
| SchemaValidationFailed (paths : list jsstring).

Inductive Outcome (A : Type) : Type :=
| Returned (a : A)
| Thrown (e : ErrorMsg)
| Unmodelled.

Arguments Thrown {A} e.
Arguments Unmodelled {A}.

Definition bind {A B} (m : Outcome A) (k : A -> Outcome B) : Outcome B :=
  match m with
  | Returned a => k a
  | Thrown e => Thrown e
  | Unmodelled => Unmodelled
  end.

Notation "x <- m ;; k" := (bind m (fun x => k))
  (at level 61, m at next level, right associativity).
Notation "m ;;; k" := (bind m (fun _ => k))
  (at level 61, right associativity).

(* ================================================================== *)
(** ** Templates and the scoring engine ([KpiEntryValidation]) *)

Inductive Value : Type :=
| VNum (q : Q)
| VStr (s : jsstring).

Inductive KpiType : Type :=
| Quantitative | Percentage | Binary | Qualitative | Score
| OtherType (tag : jsstring).

(** A scoring rule as the untyped template stores it: each of [value],
    [min] and [max] may be absent. *)
Record ScoringRule : Type := mkRule {
  rule_value : option Value;
  rule_min : option Q;
  rule_max : option Q;
  rule_score : Q
}.

Record TemplateItem : Type := mkItem {
  item_name : jsstring;
  item_maxMarks : Q;
  item_kpiType : KpiType;
  item_scoringRules : list ScoringRule
}.

Record Template : Type := mkTemplate {
  tpl_id : jsstring;
  tpl_name : jsstring;
  tpl_departmentSlug : jsstring;
  tpl_role : jsstring;
  tpl_template : list TemplateItem
}.

Record RawValue : Type := mkRaw { raw_name : jsstring; raw_value : Value }.

Record ScoredValue : Type := mkScored {
  sv_name : jsstring;
  sv_value : Value;
  sv_score : Q
}.

Definition validateValueByType (templateItem : TemplateItem) (value : Value)
  : Outcome unit :=
  let name := item_name templateItem in
  match item_kpiType templateItem with
  | Quantitative =>
    match value with
    | VStr _ => Thrown (ExpectsNumeric name)
    | VNum v => if num_ltb v 0 then Thrown (CannotBeNegative name)
                else Returned tt
    end
  | Percentage =>
    match value with
    | VStr _ => Thrown (ExpectsNumeric name)
    | VNum v => if num_ltb v 0 || num_ltb 100 v
                then Thrown (PercentageOutOfRange name)
                else Returned tt
    end
  | Binary =>
    match value with
    | VNum _ => Thrown (ExpectsYesNoString name)
    | VStr _ => Returned tt
    end
  | Qualitative =>
    match value with
    | VNum _ => Thrown (ExpectsString name)
    | VStr _ => Returned tt
    end
  | Score =>
    match value with
    | VStr _ => Thrown (ExpectsNumeric name)
    | VNum v =>
      if num_ltb v 0 || num_ltb (item_maxMarks templateItem) v
      then Thrown (ScoreOutOfRange name (item_maxMarks templateItem))
      else Returned tt
    end
  | OtherType tag => Thrown (UnknownKpiType tag)
  end.

(** [rule.value === value] *)
Definition strictEq (rv : option Value) (value : Value) : bool :=
  match rv, value with
  | Some (VNum a), VNum b => Qeq_bool a b
  | Some (VStr a), VStr b => jseqb a b
  | _, _ => false
  end.

Definition matchesRule (rule : ScoringRule) (value : Value) (kpiType : KpiType)
  : Outcome bool :=
  match kpiType with
  | Binary | Qualitative => Returned (strictEq (rule_value rule) value)
  | _ =>
    match rule_min rule, rule_max rule with
    | Some mn, Some mx =>
      match value with
      | VNum v => Returned (Qle_bool mn v && Qle_bool v mx)
      | VStr _ => Unmodelled
      end
    | _, _ =>
      match rule_value rule with
      | Some rv =>
        match kpiType with
        | Percentage =>
          match rv, value with
          | VNum ruleValue, VNum inputValue =>
            Returned (Qle_bool ruleValue inputValue)
          | _, _ => Unmodelled
          end
        | _ => Returned (strictEq (Some rv) value)
        end
      | None => Returned false
      end
    end
  end.

(** The numeric threshold of a rule, when [rule.value] is a number. *)
Definition ruleThreshold (r : ScoringRule) : option Q :=
  match rule_value r with
  | Some (VNum q) => Some q
  | _ => None
  end.

Fixpoint thresholds (rules : list ScoringRule) : option (list (Q * ScoringRule)) :=
  match rules with
  | [] => Some []
  | r :: rs =>
    match ruleThreshold r, thresholds rs with
    | Some q, Some l => Some ((q, r) :: l)
    | _, _ => None
    end
  end.

Section StableSort.
Variable A : Type.
Variable key : A -> Q.

(** [Array.prototype.sort((a, b) => key(b) - key(a))]: the sort is stable,
    so elements with equal keys keep their order. *)
Fixpoint insertDesc (x : A) (l : list A) : list A :=
  match l with
  | [] => [x]
  | h :: t => if num_ltb (key x) (key h) then h :: insertDesc x t
              else x :: h :: t
  end.

Fixpoint sortDesc (l : list A) : list A :=
  match l with
  | [] => []
  | x :: r => insertDesc x (sortDesc r)
  end.

(** The order of a list sorted by descending key. *)
Definition descending (a b : A) : Prop := key b <= key a.

End StableSort.

Fixpoint firstMatching (rules : list ScoringRule) (value : Value)
  (kpiType : KpiType) : Outcome Q :=
  match rules with
  | [] => Returned 0
  | rule :: rest =>
    m <- matchesRule rule value kpiType ;;
    if m then Returned (rule_score rule)
    else firstMatching rest value kpiType
  end.

Definition calculateScore (templateItem : TemplateItem) (value : Value)
  : Outcome Q :=
  match item_kpiType templateItem with
  | Score =>
    match value with
    | VNum v => Returned (num_min v (item_maxMarks templateItem))
    | VStr _ => Unmodelled
    end
  | Percentage =>
    match value, thresholds (item_scoringRules templateItem) with
    | VNum inputValue, Some keyed =>
      let sortedRules := sortDesc fst keyed in
      match find (fun kr => Qle_bool (fst kr) inputValue) sortedRules with
      | Some kr => Returned (rule_score (snd kr))
      | None => Returned 0
      end
    | _, _ => Unmodelled
    end
  | kpiType => firstMatching (item_scoringRules templateItem) value kpiType
  end.

Definition findItem (template : Template) (name : jsstring) : option TemplateItem :=
  find (fun item => jseqb (item_name item) name) (tpl_template template).

Fixpoint validateAndCalculateScores (template : Template) (values : list RawValue)
  : Outcome (list ScoredValue) :=
  match values with
  | [] => Returned []
  | value :: rest =>
    match findItem template (raw_name value) with
    | None => Thrown (ItemNotInTemplate (raw_name value))
    | Some templateItem =>
      validateValueByType templateItem (raw_value value) ;;;
      score <- calculateScore templateItem (raw_value value) ;;
      validated <- validateAndCalculateScores template rest ;;
      Returned (mkScored (raw_name value) (raw_value value) score :: validated)
    end
  end.


(* ================================================================== *)
(** ** CSV migration: configuration tables ([KpiMigrationService]) *)

Definition HeaderTable := list (jsstring * list jsstring).

Inductive CalculationType : Type := CalcPercentage | CalcDirect.

Record KpiMapping : Type := mkKpiMapping {
  searchTerms : list jsstring;
  calculationType : CalculationType
}.

Record CsvParserConfig : Type := mkConfig {
  cfg_departmentSlug : jsstring;
  cfg_role : jsstring;
  cfg_officerNameColumn : jsstring;
  cfg_kpiMappings : list (jsstring * KpiMapping)
}.

Record HeaderMapping : Type := mkHeaderMapping {
  originalHeader : jsstring;
  normalizedHeader : jsstring;
  confidence : Q
}.

Record CsvKpiData : Type := mkCsvKpiData {
  officerName : jsstring;
  courtName : option jsstring;
  kpiValues : list (jsstring * Q)
}.

(** Header normalization mappings for different variations. *)
Definition headerNormalizations : HeaderTable :=
  [
    (js "पीठासीन अधिकारी",
      [js "पीठासीन अधिकारी का नाम";
       js "पीठासीन अधिकारी";
       js "अधिकारी";
       js "officer";
       js "name";
       js "नाम";
       js "अधिकारी का नाम";
       js "पदाधिकारी"]);
    (js "officerName",
      [js "पीठासीन अधिकारी";
       js "पीठासीन अधिकारी का नाम";
       js "अधिकारी";
       js "officer";
       js "name";
       js "नाम";
       js "अधिकारी का नाम";
       js "पदाधिकारी"]);
    (js "व्यपवर्तन",
      [js "व्यपवर्तन";
       js "व्यपवर्तन (अ-2)";
       js "व्यपवर्तन अ-2";
       js "disposal";
       js "case disposal"]);
    (js "अभिलेख दुरुस्ती/त्रुटियुधार",
      [js "अभिलेख दुरुस्ती/त्रुटियुधार";
       js "त्रुटि सुधार";
       js "त्रुटि सुधार (अ-6-अ)";
       js "त्रुटि सुधार अ-6-अ";
       js "error correction";
       js "record correction";
       js "अभिलेख दुरुस्ती"]);
    (js "अपील निराकरण",
      [js "अपील निराकरण";
       js "appeal disposal";
       js "appeal resolution"]);
    (js "आँगनबाड़ी/स्कूल/पीडीएस शॉप/विकास कार्य निरीक्षण",
      [js "आँगनबाड़ी/स्कूल/पीडीएस शॉप/विकास कार्य निरीक्षण";
       js "आंगनबाड़ी / स्कुल / पीडीएस शॉप / स्वास्थ्य केन्द्र निरीक्षण";
       js "आंगनबाड़ी/स्कूल/पीडीएस शॉप/स्वास्थ्य केन्द्र निरीक्षण";
       js "आंगनबाड़ी स्कूल पीडीएस शॉप स्वास्थ्य केन्द्र निरीक्षण";
       js "inspection";
       js "field inspection"]);
    (js "टीएल/जनदर्शन/जनशिकायत/पीजी",
      [js "टीएल/जनदर्शन/जनशिकायत/पीजी";
       js "टी.एल./जनदर्शन / जनशिकायत /लोक सेवा";
       js "टीएल / जनदर्शन / जनशिकायत / पीजी";
       js "TL / जनदर्शन / जनशिकायत / PG";
       js "TL/जनदर्शन/जनशिकायत/PG";
       js "public hearing";
       js "grievance"]);
    (js "खाता विभाजन (विवादित + अविवादित)",
      [js "खाता विभाजन (विवादित + अविवादित)";
       js "खाता विभाजन";
       js "account division"]);
    (js "नामांतरण (विवादित + अविवादित)",
      [js "नामांतरण (विवादित + अविवादित)";
       js "नामांतरण";
       js "name transfer"]);
    (js "सीमांकन",
      [js "सीमांकन";
       js "demarcation"]);
    (js "विविध राजस्व मामले (बी-121)",
      [js "विविध राजस्व मामले (बी-121)";
       js "विविध राजस्व मामले";
       js "miscellaneous revenue cases"]);
    (js "कुल निराकरण",
      [js "कुल निराकरण";
       js "कूल निराकरण";
       js "total disposal"]);
    (js "जाति प्रमाणपत्र",
      [js "जाति प्रमाणपत्र";
       js "जाति प्रमाण पत्र";
       js "caste certificate"]);
    (js "अवैध उत्खनन/अतिक्रमण",
      [js "अवैध उत्खनन/अतिक्रमण";
       js "अवैध उत्खनन /अतिक्रमण";
       js "illegal excavation/encroachment"]);
    (js "आर बी सी 6 (4)",
      [js "आर बी सी 6 (4)";
       js "RBC 6(4)";
       js "आर.बी.सी. 6 (4)"]);
    (js "टी.एल./जनदर्शन / जनशिकायत /लोक सेवा",
      [js "टी.एल./जनदर्शन / जनशिकायत /लोक सेवा";
       js "टीएल/जनदर्शन/जनशिकायत/पीजी";
       js "public hearing";
       js "grievance"])
  ].

(** Sub-header normalization mappings. *)
Definition subHeaderNormalizations : HeaderTable :=
  [
    (js "कुल दर्ज",
      [js "कुल दर्ज";
       js "total registered";
       js "registered";
       js "total";
       js "दर्ज"]);
    (js "कुल निराकृत",
      [js "कुल निराकृत";
       js "total disposed";
       js "disposed";
       js "निराकृत";
       js "निपटाया"]);
    (js "कुल लंबित",
      [js "कुल लंबित";
       js "total pending";
       js "pending";
       js "लंबित";
       js "बाकी"])
  ].

Definition sdmConfig : CsvParserConfig :=
  {| cfg_departmentSlug := js "revenue-department";
     cfg_role := js "sdm";
     cfg_officerNameColumn := js "पीठासीन अधिकारी";
     cfg_kpiMappings :=
       [
         (js "व्यपवर्तन",
          {| searchTerms := [js "व्यपवर्तन"];
             calculationType := CalcPercentage |});
         (js "अभिलेख दुरुस्ती/त्रुटियुधार",
          {| searchTerms := [js "अभिलेख दुरुस्ती/त्रुटियुधार"];
             calculationType := CalcPercentage |});
         (js "अपील निराकरण",
          {| searchTerms := [js "अपील निराकरण"];
             calculationType := CalcPercentage |});
         (js "कुल प्रकरणों का निराकरण",
          {| searchTerms := [js "कुल प्रकरणों का निराकरण"];
             calculationType := CalcPercentage |});
         (js "जाति प्रमाणपत्र",
          {| searchTerms := [js "जाति प्रमाणपत्र"];
             calculationType := CalcPercentage |});
         (js "आँगनबाड़ी/स्कूल/पीडीएस शॉप/विकास कार्य निरीक्षण",
          {| searchTerms := [js "आँगनबाड़ी/स्कूल/पीडीएस शॉप/विकास कार्य निरीक्षण"];
             calculationType := CalcPercentage |});
         (js "RBC 6(4)",
          {| searchTerms := [js "RBC 6(4)"];
             calculationType := CalcPercentage |});
         (js "टीएल/जनदर्शन/जनशिकायत/पीजी",
          {| searchTerms := [js "टीएल/जनदर्शन/जनशिकायत/पीजी"];
             calculationType := CalcPercentage |})
       ] |}.

Definition tehsildarConfig : CsvParserConfig :=
  {| cfg_departmentSlug := js "revenue-department";
     cfg_role := js "tehsildar";
     cfg_officerNameColumn := js "पीठासीन अधिकारी";
     cfg_kpiMappings :=
       [
         (js "खाता विभाजन (विवादित + अविवादित)",
          {| searchTerms := [js "खाता विभाजन (विवादित + अविवादित)"; js "खाता विभाजन"];
             calculationType := CalcPercentage |});
         (js "नामांतरण (विवादित + अविवादित)",
          {| searchTerms := [js "नामांतरण (विवादित + अविवादित)"; js "नामांतरण"];
             calculationType := CalcPercentage |});
         (js "सीमांकन",
          {| searchTerms := [js "सीमांकन"];
             calculationType := CalcPercentage |});
         (js "विविध राजस्व मामले (बी-121)",
          {| searchTerms := [js "विविध राजस्व मामले (बी-121)"; js "विविध राजस्व मामले"];
             calculationType := CalcPercentage |});
         (js "कुल निराकरण",
          {| searchTerms := [js "कूल निराकरण"; js "कुल निराकरण"];
             calculationType := CalcPercentage |});
         (js "जाति प्रमाणपत्र",
          {| searchTerms := [js "जाति प्रमाण पत्र"; js "जाति प्रमाणपत्र"];
             calculationType := CalcPercentage |});
         (js "अवैध उत्खनन/अतिक्रमण",
          {| searchTerms := [js "अवैध उत्खनन /अतिक्रमण"; js "अवैध उत्खनन/अतिक्रमण"];
             calculationType := CalcPercentage |});
         (js "आर बी सी 6 (4)",
          {| searchTerms := [js "आर बी सी 6 (4)"; js "RBC 6(4)"];
             calculationType := CalcPercentage |});
         (js "टी.एल./जनदर्शन / जनशिकायत /लोक सेवा",
          {| searchTerms := [js "टी.एल./जनदर्शन / जनशिकायत /लोक सेवा"; js "टीएल/जनदर्शन/जनशिकायत/पीजी"];
             calculationType := CalcPercentage |})
       ] |}.

(** Department-specific CSV parser configurations, keyed by [<departmentSlug>-<role>]. *)
Definition csvParserConfigs : list (jsstring * CsvParserConfig) :=
  [(js "revenue-department-sdm", sdmConfig);
   (js "revenue-department-tehsildar", tehsildarConfig)].

(* ================================================================== *)
(** ** CSV migration: header normalizer, fuzzy matcher and parser *)

(** Property read [obj[key]] and write [obj[key] = v] on an object whose
    keys are kept in insertion order. *)
Fixpoint getKey {V} (obj : list (jsstring * V)) (key : jsstring) : option V :=
  match obj with
  | [] => None
  | (k, v) :: r => if jseqb k key then Some v else getKey r key
  end.

Fixpoint setKey {V} (obj : list (jsstring * V)) (key : jsstring) (v : V)
  : list (jsstring * V) :=
  match obj with
  | [] => [(key, v)]
  | (k, w) :: r => if jseqb k key then (k, v) :: r else (k, w) :: setKey r key v
  end.

(** Truthiness of a [string | null] value. *)
Definition truthy (o : option jsstring) : bool :=
  match o with
  | Some (_ :: _) => true
  | _ => false
  end.

(** [a === b] on [string | null] values. *)
Definition optStrEq (a b : option jsstring) : bool :=
  match a, b with
  | Some x, Some y => jseqb x y
  | None, None => true
  | _, _ => false
  end.

Definition digitValue (c : N) : option N :=
  if ((48 <=? c) && (c <=? 57))%N then Some (c - 48)%N
  else if ((97 <=? c) && (c <=? 122))%N then Some (c - 87)%N
  else if ((65 <=? c) && (c <=? 90))%N then Some (c - 55)%N
  else None.

Fixpoint parseDigits (radix : N) (s : jsstring) (acc : option N) : option N :=
  match s with
  | [] => acc
  | c :: r =>
    match digitValue c with
    | Some d =>
      if (d <? radix)%N
      then parseDigits radix r
             (Some (match acc with Some a => a * radix + d | None => d end)%N)
      else acc
    | None => acc
    end
  end.

(** [parseInt(s)] without a radix argument; [None] is NaN. *)
Definition parseInt (s : jsstring) : option Z :=
  let s1 := trimStart s in
  let '(sign, s2) :=
    match s1 with
    | 45%N :: r => ((-1)%Z, r)
    | 43%N :: r => (1%Z, r)
    | _ => (1%Z, s1)
    end in
  let '(radix, s3) :=
    match s2 with
    | 48%N :: x :: r =>
      if ((x =? 120) || (x =? 88))%N then (16%N, r) else (10%N, s2)
    | _ => (10%N, s2)
    end in
  option_map (fun n => (sign * Z.of_N n)%Z) (parseDigits radix s3 None).

(** One row of the edit-distance matrix: [prev] is row [j-1] from column
    [i-1] on and [left] is the cell [matrix[j][i-1]]. *)
Fixpoint levenshteinRow (c2 : N) (str1 : jsstring) (prev : list nat) (left : nat)
  : list nat :=
  match str1, prev with
  | c1 :: r1, diag :: ((up :: _) as prev') =>
    let indicator := if (c1 =? c2)%N then O else 1%nat in
    let cell := Nat.min (Nat.min (left + 1) (up + 1)) (diag + indicator) in
    cell :: levenshteinRow c2 r1 prev' cell
  | _, _ => []
  end.

Fixpoint levenshteinRows (str1 str2 : jsstring) (prev : list nat) (j : nat)
  : list nat :=
  match str2 with
  | [] => prev
  | c2 :: r2 =>
    levenshteinRows str1 r2 (S j :: levenshteinRow c2 str1 prev (S j)) (S j)
  end.

Definition levenshteinDistance (str1 str2 : jsstring) : nat :=
  last (levenshteinRows str1 str2 (seq 0 (S (List.length str1))) 0) 0%nat.

Definition calculateSimilarity (str1 str2 : jsstring) : Q :=
  let longer := if (List.length str2 <? List.length str1)%nat then str1 else str2 in
  let shorter := if (List.length str2 <? List.length str1)%nat then str2 else str1 in
  if (List.length longer =? 0)%nat then 1
  else
    let distance := levenshteinDistance longer shorter in
    num_div (inject_Z (Z.of_nat (List.length longer) - Z.of_nat distance))
            (inject_Z (Z.of_nat (List.length longer))).

Record BestMatch : Type := mkBestMatch {
  bm_standardHeader : jsstring;
  bm_variation : jsstring;
  bm_score : nat
}.

Section HostPrimitives.

(** [String.prototype.toLowerCase] and [Number(string)] ([None] for NaN)
    of the host language. *)
Variable toLowerCase : jsstring -> jsstring.
Variable toNumber : jsstring -> option Q.

(** The score the normalizer gives one variation. *)
Definition variationScore (normalizedHeader variation : jsstring) : nat :=
  let variationLower := toLowerCase variation in
  if jseqb normalizedHeader variationLower then 100
  else if includes normalizedHeader variationLower
          || includes variationLower normalizedHeader then 50
  else 0.

Definition considerVariation (normalizedHeader standardHeader : jsstring)
  (bestMatch : option BestMatch) (variation : jsstring) : option BestMatch :=
  let score := variationScore normalizedHeader variation in
  if (0 <? score)%nat
     && match bestMatch with
        | None => true
        | Some b => (bm_score b <? score)%nat
        end
  then Some (mkBestMatch standardHeader variation score)
  else bestMatch.

Definition normalizeHeader (header : jsstring) (normalizations : HeaderTable)
  : option jsstring :=
  let normalizedHeader := toLowerCase (trim header) in
  let bestMatch :=
    fold_left
      (fun best entry =>
         fold_left (considerVariation normalizedHeader (fst entry))
                   (snd entry) best)
      normalizations None in
  option_map bm_standardHeader bestMatch.

Definition considerHeader (targetHeader : jsstring) (normalizedTarget : jsstring)
  (normalizations : HeaderTable) (st : option HeaderMapping * Q)
  (header : jsstring) : option HeaderMapping * Q :=
  let '(bestMatch, highestConfidence) := st in
  if isEmpty header || isEmpty (trim header) then st
  else
    let normalized := normalizeHeader header normalizations in
    if optStrEq normalized (Some normalizedTarget) then
      let confidence := 1 in
      if num_ltb highestConfidence confidence
      then (Some (mkHeaderMapping header normalizedTarget confidence), confidence)
      else st
    else
      match normalized with
      | Some ((_ :: _) as nh) =>
        if num_ltb (7 # 10) (calculateSimilarity header targetHeader) then
          let confidence := calculateSimilarity header targetHeader in
          if num_ltb highestConfidence confidence
          then (Some (mkHeaderMapping header nh confidence), confidence)
          else st
        else st
      | _ => st
      end.

Definition findBestHeaderMatch (targetHeader : jsstring)
  (availableHeaders : list jsstring) (normalizations : HeaderTable)
  : option HeaderMapping :=
  match normalizeHeader targetHeader normalizations with
  | Some ((_ :: _) as normalizedTarget) =>
    fst (fold_left (considerHeader targetHeader normalizedTarget normalizations)
                   availableHeaders (None, 0))
  | _ => None
  end.

Fixpoint firstTermMatch (terms : list jsstring) (headers : list jsstring)
  : option HeaderMapping :=
  match terms with
  | [] => None
  | searchTerm :: rest =>
    match findBestHeaderMatch searchTerm headers headerNormalizations with
    | Some kpiMatch => Some kpiMatch
    | None => firstTermMatch rest headers
    end
  end.

Definition configKeyOf (departmentSlug role : jsstring) : jsstring :=
  departmentSlug ++ js "-" ++ role.

Definition createHeaderMapping (headers subHeaders : list jsstring)
  (departmentSlug role : jsstring) : Outcome (list (jsstring * HeaderMapping)) :=
  let configKey := configKeyOf departmentSlug role in
  match getKey csvParserConfigs configKey with
  | None => Thrown (NoParserConfig configKey)
  | Some config =>
    let headerMapping0 :=
      match findBestHeaderMatch (cfg_officerNameColumn config) headers
                                headerNormalizations with
      | Some officerNameMatch => [(js "officerName", officerNameMatch)]
      | None => []
      end in
    Returned
      (fold_left
         (fun headerMapping entry =>
            match firstTermMatch (searchTerms (snd entry)) headers with
            | Some kpiMatch => setKey headerMapping (fst entry) kpiMatch
            | None => headerMapping
            end)
         (cfg_kpiMappings config) headerMapping0)
  end.

(** [values[i]?.trim()], kept only when it is truthy. *)
Definition trimmedAt (values : list jsstring) (i : nat) : option jsstring :=
  match nth_error values i with
  | Some v => match trim v with
              | [] => None
              | t => Some t
              end
  | None => None
  end.

Definition headerIndexOf (headers : list jsstring) (m : HeaderMapping)
  : option nat :=
  findIndex (fun header => jseqb (trim header) (originalHeader m)) headers.

Definition extractPercentageWithMapping (values headers subHeaders : list jsstring)
  (kpiMapping : HeaderMapping) (kpiName : jsstring) (allKpiNames : list jsstring)
  : option Q :=
  match headerIndexOf headers kpiMapping with
  | None => None
  | Some kpiIndex =>
    let configKey := js "revenue-department-tehsildar" in
    match getKey csvParserConfigs configKey with
    | None => None
    | Some config =>
      let orderedKpis := map fst (cfg_kpiMappings config) in
      match indexOf orderedKpis kpiName with
      | None => None
      | Some kpiIndexInSequence =>
        let baseIndex := (2 + kpiIndexInSequence * 3)%nat in
        let registeredIndex := baseIndex in
        let disposedIndex := (baseIndex + 1)%nat in
        match trimmedAt values registeredIndex, trimmedAt values disposedIndex with
        | Some registeredValue, Some disposedValue =>
          match parseInt registeredValue, parseInt disposedValue with
          | Some registered, Some disposed =>
            if (0 <? registered)%Z then
              let exactPercentage :=
                num_mul (num_div (inject_Z disposed) (inject_Z registered)) 100 in
              let cappedPercentage := num_min exactPercentage 100 in
              let roundedPercentage :=
                num_div (num_round (num_mul cappedPercentage 100)) 100 in
              Some roundedPercentage
            else None
          | _, _ => None
          end
        | _, _ => None
        end
      end
    end
  end.

Definition extractDirectValueWithMapping (values headers subHeaders : list jsstring)
  (kpiMapping : HeaderMapping) (kpiName : jsstring) : option Q :=
  match headerIndexOf headers kpiMapping with
  | None => None
  | Some kpiIndex =>
    match trimmedAt values kpiIndex with
    | Some value => toNumber value
    | None => None
    end
  end.

(** The KPI values of one data row. *)
Definition rowKpiValues (values headers subHeaders : list jsstring)
  (headerMapping : list (jsstring * HeaderMapping)) (config : CsvParserConfig)
  : list (jsstring * Q) :=
  fold_left
    (fun kpiValues entry =>
       let kpiName := fst entry in
       match getKey headerMapping kpiName with
       | None => kpiValues
       | Some kpiMapping =>
         let extracted :=
           match calculationType (snd entry) with
           | CalcPercentage =>
             let allKpiNames :=
               filter (fun key => negb (jseqb key (js "officerName")))
                      (map fst headerMapping) in
             extractPercentageWithMapping values headers subHeaders
               kpiMapping kpiName allKpiNames
           | CalcDirect =>
             extractDirectValueWithMapping values headers subHeaders
               kpiMapping kpiName
           end in
         match extracted with
         | Some value => setKey kpiValues kpiName value
         | None => kpiValues
         end
       end)
    (cfg_kpiMappings config) [].

(** The body of the row loop: the record a line contributes, if any. *)
Definition parseLine (line : jsstring) (headers subHeaders : list jsstring)
  (headerMapping : list (jsstring * HeaderMapping)) (config : CsvParserConfig)
  (officerNameIndex : nat) (role : jsstring) : option CsvKpiData :=
  let values := split comma line in
  if (List.length values <? 2)%nat then None
  else
    match trimmedAt values officerNameIndex with
    | None => None
    | Some officer =>
      match rowKpiValues values headers subHeaders headerMapping config with
      | [] => None
      | kpis =>
        let court :=
          if jseqb role (js "tehsildar") && (1 <? List.length values)%nat
          then option_map trim (nth_error values 1)
          else None in
        Some (mkCsvKpiData officer court kpis)
      end
    end.

(** [for (let i = 1; i < lines.length; i++)]: every line but the first. *)
Definition parseRows (lines : list jsstring) (headers subHeaders : list jsstring)
  (headerMapping : list (jsstring * HeaderMapping)) (config : CsvParserConfig)
  (officerNameIndex : nat) (role : jsstring) : list CsvKpiData :=
  flat_map
    (fun line =>
       match parseLine line headers subHeaders headerMapping config
                       officerNameIndex role with
       | Some record => [record]
       | None => []
       end)
    (skipn 1 lines).

Definition parseCsvData (csvContent departmentSlug role : jsstring)
  : Outcome (list CsvKpiData) :=
  let lines := split newline (trim csvContent) in
  let headers := split comma (nth 0 lines []) in
  match nth_error lines 1 with
  | None => Thrown TypeErrorUndefined
  | Some line1 =>
    let subHeaders := split comma line1 in
    headerMapping <- createHeaderMapping headers subHeaders departmentSlug role ;;
    match getKey headerMapping (js "officerName") with
    | None => Thrown NoOfficerNameColumn
    | Some officerNameMapping =>
      match headerIndexOf headers officerNameMapping with
      | None => Thrown (OfficerNameColumnNotFound (originalHeader officerNameMapping))
      | Some officerNameIndex =>
        match getKey csvParserConfigs (configKeyOf departmentSlug role) with
        | None => Thrown TypeErrorUndefined
        | Some config =>
          Returned (parseRows lines headers subHeaders headerMapping config
                              officerNameIndex role)
        end
      end
    end
  end.

End HostPrimitives.

(** A decimal literal [digits[.digits]] with an optional sign, as [Number]
    reads it; used where the host conversion is instantiated. *)
Definition decimalNumber (s : jsstring) : option Q :=
  let t := trim s in
  let '(sign, body) :=
    match t with
    | 45%N :: r => ((-1)%Z, r)
    | 43%N :: r => (1%Z, r)
    | _ => (1%Z, t)
    end in
  match split 46 body with
  | [ip] =>
    if forallb (fun c => (48 <=? c) && (c <=? 57))%N ip && negb (isEmpty ip)
    then option_map (fun n => inject_Z (sign * Z.of_N n)) (parseDigits 10 ip None)
    else None
  | [ip; fp] =>
    if forallb (fun c => (48 <=? c) && (c <=? 57))%N (ip ++ fp)
       && negb (isEmpty (ip ++ fp))
    then option_map
           (fun n => num_div (inject_Z (sign * Z.of_N n))
                             (inject_Z (10 ^ Z.of_nat (List.length fp))))
           (parseDigits 10 (ip ++ fp) None)
    else None
  | _ => None
  end.

(* ================================================================== *)
(** ** KPI entries, the document store and the identity service *)

Record KpiRef : Type := mkKpiRef { ref_label : jsstring; ref_value : jsstring }.

Inductive Status : Type := Created | Initiated | Generated.

Record KpiEntry : Type := mkEntry {
  entry_id : N;
  entry_month : Z;
  entry_year : Z;
  entry_templateId : jsstring;
  entry_kpiRef : KpiRef;
  entry_values : list ScoredValue;
  entry_status : Status;
  entry_totalScore : Q;
  entry_createdBy : jsstring;
  entry_createdFor : jsstring
}.

(** The entries collection and the generator of fresh document ids. *)
Record World : Type := mkWorld {
  entries : list KpiEntry;
  idCounter : N
}.

(** A member as the identity service answers it:
    [{userId, metadata?: {kpiRef?}, user: {name}}]. *)
Record Member : Type := mkMember {
  member_userId : jsstring;
  member_kpiRef : option (list KpiRef);
  member_userName : jsstring
}.

(** The two endpoints the migration uses: [GET /members/name/{name}] (the
    member of a successful answer, [None] on any failure) and
    [GET /members?role=tehsildar&departmentSlug=revenue-department&limit=100]
    (the [docs] of the answer). *)
Record IdentityService : Type := mkIdentity {
  membersByName : jsstring -> option Member;
  tehsildarDocs : option (list Member)
}.

Definition findTemplateById (templates : list Template) (id : jsstring)
  : option Template :=
  find (fun t => jseqb (tpl_id t) id) templates.

Definition fetchMemberByName (svc : IdentityService) (name : jsstring)
  : option Member :=
  membersByName svc (trim name).

Definition isCourtRef (court : jsstring) (ref : KpiRef) : bool :=
  jseqb (ref_label ref) (js "court") && jseqb (ref_value ref) court.



(** Outcome recorded for a record in [result.details]. *)
Inductive DetailMessage : Type :=
| MsgMemberNotFound
| MsgCourtNotInKpiRef (court : jsstring)
| MsgEntryExistsForCourt (court : jsstring)
| MsgEntryExists
| MsgCreatedForCourt (court : jsstring)
| MsgCreated
| MsgError (e : ErrorMsg).

Record Detail : Type := mkDetail {
  detail_success : bool;
  detail_message : DetailMessage;
  detail_entryId : option N
}.

Inductive MigrationError : Type :=
| ErrorProcessing (officer : jsstring) (e : ErrorMsg)
| NoValidDataInCsv.

Record MigrationResult : Type := mkResult {
  totalRecords : nat;
  successfulEntries : nat;
  failedEntries : nat;
  skippedEntries : nat;
  errors : list MigrationError;
  details : list (jsstring * Detail)
}.

(** What the body of the record loop does when it does not throw. *)
Inductive StepResult : Type :=
| StepSkipped (msg : DetailMessage)
| StepCreated (id : N) (msg : DetailMessage).

(** Schema validation on [save]: [month] in 1..12, [year] at least 2020 and
    the required strings present; the failing paths are reported. *)
Definition schemaErrors (e : KpiEntry) : list jsstring :=
  (if (1 <=? entry_month e)%Z && (entry_month e <=? 12)%Z then [] else [js "month"])
  ++ (if (2020 <=? entry_year e)%Z then [] else [js "year"])
  ++ (if isEmpty (entry_templateId e) then [js "templateId"] else [])
  ++ (if isEmpty (ref_label (entry_kpiRef e)) then [js "kpiRef.label"] else [])
  ++ (if isEmpty (ref_value (entry_kpiRef e)) then [js "kpiRef.value"] else [])
  ++ (if existsb (fun v => isEmpty (sv_name v)) (entry_values e)
      then [js "values.name"] else [])
  ++ (if isEmpty (entry_createdBy e) then [js "createdBy"] else [])
  ++ (if isEmpty (entry_createdFor e) then [js "createdFor"] else []).

(** [doc.save()] of a new document; the store itself does not fail. *)
Definition save (w : World) (e : KpiEntry) : Outcome unit * World :=
  match schemaErrors e with
  | [] => (Returned tt, mkWorld (entries w ++ [e]) (idCounter w))
  | paths => (Thrown (SchemaValidationFailed paths), w)
  end.

(** [createdBy || 'system'] *)
Definition orSystem (createdBy : jsstring) : jsstring :=
  match createdBy with
  | [] => js "system"
  | _ => createdBy
  end.

Definition recordValues (record : CsvKpiData) : list RawValue :=
  map (fun kv => mkRaw (fst kv) (VNum (snd kv))) (kpiValues record).

(** [KpiEntryModel.findOne({createdFor, month, year, templateId})], with
    ['kpiRef.value'] added when [court] is given: is there such an entry? *)
Definition entryExists (w : World) (createdFor : jsstring) (month year : Z)
  (templateId : jsstring) (court : option jsstring) : bool :=
  existsb
    (fun e =>
       jseqb (entry_createdFor e) createdFor
       && (entry_month e =? month)%Z
       && (entry_year e =? year)%Z
       && jseqb (entry_templateId e) templateId
       && match court with
          | Some c => jseqb (ref_value (entry_kpiRef e)) c
          | None => true
          end)
    (entries w).

(** From [new KpiEntryModel({...})] to [kpiEntry.save()]: the document gets
    its id on construction, the scores by validation, and is then stored. *)
Definition buildAndSave (template : Template) (w : World) (month year : Z)
  (templateId createdBy : jsstring) (member : Member) (kpiRef : KpiRef)
  (values : list RawValue) : Outcome N * World :=
  let id := idCounter w in
  let w1 := mkWorld (entries w) (N.succ id) in
  match validateAndCalculateScores template values with
  | Returned validatedValues =>
    let kpiEntry :=
      mkEntry id month year templateId kpiRef validatedValues Generated
              (num_sum (map sv_score validatedValues))
              (orSystem createdBy) (member_userId member) in
    match save w1 kpiEntry with
    | (Returned _, w2) => (Returned id, w2)
    | (Thrown e, w2) => (Thrown e, w2)
    | (Unmodelled, w2) => (Unmodelled, w2)
    end
  | Thrown e => (Thrown e, w1)
  | Unmodelled => (Unmodelled, w1)
  end.

(** The [try] block of the record loop. *)
Definition processRecord (svc : IdentityService) (template : Template)
  (month year : Z) (templateId createdBy : jsstring)
  (w : World) (record : CsvKpiData) : Outcome StepResult * World :=
  match courtName record with
  | Some ((_ :: _) as court) =>
    match fetchMemberByName svc (officerName record) with
    | None => (Returned (StepSkipped MsgMemberNotFound), w)
    | Some member =>
      let refs := match member_kpiRef member with Some l => l | None => [] end in
      match find (isCourtRef court) refs with
      | None => (Returned (StepSkipped (MsgCourtNotInKpiRef court)), w)
      | Some matchingCourtRef =>
        if entryExists w (member_userId member) month year templateId (Some court)
        then (Returned (StepSkipped (MsgEntryExistsForCourt court)), w)
        else
          match buildAndSave template w month year templateId createdBy
                             member matchingCourtRef (recordValues record) with
          | (Returned id, w') => (Returned (StepCreated id (MsgCreatedForCourt court)), w')
          | (Thrown e, w') => (Thrown e, w')
          | (Unmodelled, w') => (Unmodelled, w')
          end
      end
    end
  | _ =>
    match fetchMemberByName svc (officerName record) with
    | None => (Returned (StepSkipped MsgMemberNotFound), w)
    | Some member =>
      if entryExists w (member_userId member) month year templateId None
      then (Returned (StepSkipped MsgEntryExists), w)
      else
        let kpiRef :=
          match member_kpiRef member with
          | Some (first :: _) => first
          | _ => mkKpiRef (js "area") (js "raipur")
          end in
        match buildAndSave template w month year templateId createdBy
                           member kpiRef (recordValues record) with
        | (Returned id, w') => (Returned (StepCreated id MsgCreated), w')
        | (Thrown e, w') => (Thrown e, w')
        | (Unmodelled, w') => (Unmodelled, w')
        end
    end
  end.

Definition countSkipped (r : MigrationResult) (officer : jsstring)
  (msg : DetailMessage) : MigrationResult :=
  mkResult (totalRecords r) (successfulEntries r) (failedEntries r)
           (S (skippedEntries r)) (errors r)
           (setKey (details r) officer (mkDetail false msg None)).

Definition countSuccessful (r : MigrationResult) (officer : jsstring)
  (id : N) (msg : DetailMessage) : MigrationResult :=
  mkResult (totalRecords r) (S (successfulEntries r)) (failedEntries r)
           (skippedEntries r) (errors r)
           (setKey (details r) officer (mkDetail true msg (Some id))).

Definition countFailed (r : MigrationResult) (officer : jsstring)
  (e : ErrorMsg) : MigrationResult :=
  mkResult (totalRecords r) (successfulEntries r) (S (failedEntries r))
           (skippedEntries r) (errors r ++ [ErrorProcessing officer e])
           (setKey (details r) officer (mkDetail false (MsgError e) None)).

(** [for (const record of csvData) { try {...} catch {...} }] *)
Fixpoint processRecords (svc : IdentityService) (template : Template)
  (month year : Z) (templateId createdBy : jsstring)
  (csvData : list CsvKpiData) (result : MigrationResult) (w : World)
  : Outcome (MigrationResult * World) :=
  match csvData with
  | [] => Returned (result, w)
  | record :: rest =>
    match processRecord svc template month year templateId createdBy w record with
    | (Returned (StepSkipped msg), w') =>
      processRecords svc template month year templateId createdBy rest
        (countSkipped result (officerName record) msg) w'
    | (Returned (StepCreated id msg), w') =>
      processRecords svc template month year templateId createdBy rest
        (countSuccessful result (officerName record) id msg) w'
    | (Thrown e, w') =>
      processRecords svc template month year templateId createdBy rest
        (countFailed result (officerName record) e) w'
    | (Unmodelled, _) => Unmodelled
    end
  end.

Definition createKpiEntryFromCsvData (templates : list Template)
  (svc : IdentityService) (csvData : list CsvKpiData) (month year : Z)
  (templateId createdBy : jsstring) (w : World)
  : Outcome (MigrationResult * World) :=
  let result := mkResult (List.length csvData) 0 0 0 [] [] in
  match findTemplateById templates templateId with
  | None => Thrown TemplateNotFound
  | Some template =>
    processRecords svc template month year templateId createdBy csvData result w
  end.

Definition migrateCsvData (toLowerCase : jsstring -> jsstring)
  (toNumber : jsstring -> option Q) (templates : list Template)
  (svc : IdentityService) (csvContent : jsstring) (month year : Z)
  (templateId departmentSlug role createdBy : jsstring) (w : World)
  : Outcome (MigrationResult * World) :=
  match parseCsvData toLowerCase toNumber csvContent departmentSlug role with
  | Returned [] => Returned (mkResult 0 0 0 0 [NoValidDataInCsv] [], w)
  | Returned csvData =>
    createKpiEntryFromCsvData templates svc csvData month year templateId
                              (orSystem createdBy) w
  | Thrown e => Thrown e
  | Unmodelled => Unmodelled
  end.

(* ================================================================== *)
(** ** Entry service ([KpiEntryService]) *)



Definition orElse {A} (o : option A) (d : A) : A :=
  match o with Some a => a | None => d end.


(** [findByIdAndUpdate(id, update, {new: true})] *)
Definition findByIdAndUpdate (w : World) (id : N) (f : KpiEntry -> KpiEntry)
  : option KpiEntry * World :=
  match findIndex (fun e => (entry_id e =? id)%N) (entries w) with
  | None => (None, w)
  | Some i =>
    match nth_error (entries w) i with
    | Some e =>
      (Some (f e),
       mkWorld (firstn i (entries w) ++ f e :: skipn (S i) (entries w))
               (idCounter w))
    | None => (None, w)
    end
  end.



Definition setStatus (status : Status) (e : KpiEntry) : KpiEntry :=
  mkEntry (entry_id e) (entry_month e) (entry_year e) (entry_templateId e)
          (entry_kpiRef e) (entry_values e) status (entry_totalScore e)
          (entry_createdBy e) (entry_createdFor e).


(** [updateMany({_id: {$in: ids}}, {status})] *)
Definition bulkUpdateStatus (w : World) (ids : list N) (status : Status) : World :=
  mkWorld
    (map (fun e => if existsb (N.eqb (entry_id e)) ids
                   then setStatus status e else e)
         (entries w))
    (idCounter w).

(* ================================================================== *)
(** ** Statistics ([KpiEntryStatistics.getEmployeeRankings]) *)

Record StatisticsFilters : Type := mkFilters {
  f_month : option Z;
  f_year : option Z;
  f_departments : option (list jsstring);
  f_roles : option (list jsstring);
  f_excludeDepartments : option (list jsstring);
  f_excludeRoles : option (list jsstring);
  f_limit : option Z;
  f_page : option Z
}.

Record EntrySummary : Type := mkSummary {
  es_templateId : jsstring;
  es_templateName : jsstring;
  es_totalScore : Q;
  es_maxPossibleScore : Q;
  es_percentageScore : Q;
  es_status : Status
}.

(** The per-employee accumulator of the grouping loop. *)
Record EmployeeScore : Type := mkEmployeeScore {
  emp_createdFor : jsstring;
  emp_departmentSlug : jsstring;
  emp_role : jsstring;
  emp_totalScore : Q;
  emp_maxPossibleScore : Q;
  emp_kpiEntries : list EntrySummary
}.

Record EmployeeRanking : Type := mkRanking {
  rk_employee : EmployeeScore;
  rk_percentageScore : Q;
  rk_rank : nat
}.

Record RankingsPage : Type := mkPage {
  pg_rankings : list EmployeeRanking;
  pg_total : nat;
  pg_page : Z;
  pg_limit : Z;
  pg_totalPages : option Z;
  pg_hasNextPage : bool;
  pg_hasPreviousPage : bool
}.

Definition defaultDepartments : list jsstring :=
  [js "collector-office"; js "revenue-department"].

Definition percentageOf (total maxPossible : Q) : Q :=
  if num_ltb 0 maxPossible then num_mul (num_div total maxPossible) 100 else 0.

Definition templateMaxScore (template : Template) : Q :=
  fold_left (fun sum item => num_add sum (item_maxMarks item))
            (tpl_template template) 0.

(** [query = {status: 'generated'}] with [month] and [year] when truthy. *)
Definition matchesQuery (month year : option Z) (e : KpiEntry) : bool :=
  match entry_status e with Generated => true | _ => false end
  && match month with
     | Some m => (m =? 0)%Z || (entry_month e =? m)%Z
     | None => true
     end
  && match year with
     | Some y => (y =? 0)%Z || (entry_year e =? y)%Z
     | None => true
     end.

Definition departmentMatch (finalDepartments excludeDepartments : list jsstring)
  (template : Template) : bool :=
  existsb (jseqb (tpl_departmentSlug template)) finalDepartments
  && negb (existsb (jseqb (tpl_departmentSlug template)) excludeDepartments).

Definition roleMatch (finalRoles excludeRoles : list jsstring)
  (template : Template) : bool :=
  let hasRole := negb (isEmpty (tpl_role template)) in
  (match finalRoles with [] => true | _ => false end
   || hasRole && existsb (fun role => startsWith (tpl_role template) role) finalRoles)
  && negb (existsb (fun role => hasRole && startsWith (tpl_role template) role)
                   excludeRoles).

(** The body of the grouping loop over the fetched entries. *)
Definition groupEntry (templates : list Template)
  (finalDepartments excludeDepartments finalRoles excludeRoles : list jsstring)
  (employeeScores : list (jsstring * EmployeeScore)) (entry : KpiEntry)
  : list (jsstring * EmployeeScore) :=
  match findTemplateById templates (entry_templateId entry) with
  | None => employeeScores
  | Some template =>
    if departmentMatch finalDepartments excludeDepartments template
       && roleMatch finalRoles excludeRoles template
    then
      let employeeKey := entry_createdFor entry in
      let employee :=
        match getKey employeeScores employeeKey with
        | Some e => e
        | None => mkEmployeeScore employeeKey (tpl_departmentSlug template)
                                  (tpl_role template) 0 0 []
        end in
      let maxScore := templateMaxScore template in
      setKey employeeScores employeeKey
        (mkEmployeeScore (emp_createdFor employee) (emp_departmentSlug employee)
           (emp_role employee)
           (num_add (emp_totalScore employee) (entry_totalScore entry))
           (num_add (emp_maxPossibleScore employee) maxScore)
           (emp_kpiEntries employee
            ++ [mkSummary (entry_templateId entry) (tpl_name template)
                          (entry_totalScore entry) maxScore
                          (percentageOf (entry_totalScore entry) maxScore)
                          (entry_status entry)]))
    else employeeScores
  end.

Definition withPercentage (employee : EmployeeScore) : EmployeeScore * Q :=
  (employee,
   percentageOf (emp_totalScore employee) (emp_maxPossibleScore employee)).

(** [rankings.forEach((ranking, index) => ranking.rank = index + 1)] *)
Fixpoint addRanks (index : nat) (l : list (EmployeeScore * Q))
  : list EmployeeRanking :=
  match l with
  | [] => []
  | (employee, pct) :: r => mkRanking employee pct (S index) :: addRanks (S index) r
  end.

(** [arr.slice(start, end)] with integer arguments. *)
Definition jsSlice {A} (l : list A) (startIndex endIndex : Z) : list A :=
  let len := Z.of_nat (List.length l) in
  let k := if (startIndex <? 0)%Z then Z.max (len + startIndex) 0
           else Z.min startIndex len in
  let final := if (endIndex <? 0)%Z then Z.max (len + endIndex) 0
               else Z.min endIndex len in
  firstn (Z.to_nat (final - k)) (skipn (Z.to_nat k) l).

(** [Math.ceil(n / limit)]; [None] when [limit] is 0 and the quotient is not
    a finite number. *)
Definition ceilDiv (n limit : Z) : option Z :=
  if (limit =? 0)%Z then None else Some (- ((- n) / limit))%Z.

(** The employees of the filtered entries, sorted and ranked. *)
Definition rankEmployees (templates : list Template) (kpiEntries : list KpiEntry)
  (finalDepartments excludeDepartments finalRoles excludeRoles : list jsstring)
  : list EmployeeRanking :=
  let employeeScores :=
    fold_left (groupEntry templates finalDepartments excludeDepartments
                          finalRoles excludeRoles)
              kpiEntries [] in
  addRanks 0 (sortDesc snd (map withPercentage (map snd employeeScores))).

Definition getEmployeeRankings (templates : list Template) (w : World)
  (filters : StatisticsFilters) : RankingsPage :=
  let departments := orElse (f_departments filters) defaultDepartments in
  let roles := orElse (f_roles filters) [] in
  let excludeDepartments := orElse (f_excludeDepartments filters) [] in
  let excludeRoles := orElse (f_excludeRoles filters) [] in
  let limit := orElse (f_limit filters) 50%Z in
  let page := orElse (f_page filters) 1%Z in
  let finalDepartments :=
    match departments with [] => defaultDepartments | _ => departments end in
  let finalRoles := roles in
  let kpiEntries :=
    filter (matchesQuery (f_month filters) (f_year filters)) (entries w) in
  let rankings :=
    rankEmployees templates kpiEntries finalDepartments excludeDepartments
                  finalRoles excludeRoles in
  let startIndex := ((page - 1) * limit)%Z in
  let endIndex := (startIndex + limit)%Z in
  let total := List.length rankings in
  mkPage (jsSlice rankings startIndex endIndex)
         total page limit
         (ceilDiv (Z.of_nat total) limit)
         (match ceilDiv (Z.of_nat total) limit with
          | Some pages => (page <? pages)%Z
          | None => (0 <? total)%nat
          end)
         (1 <? page)%Z.

(* ================================================================== *)
(** ** Data of the worked examples *)

Definition thresholdRule (value score : Q) : ScoringRule :=
  mkRule (Some (VNum value)) None None score.

Definition exampleRules : list ScoringRule :=
  [thresholdRule 90 10; thresholdRule 70 7; thresholdRule 50 5].

Definition examplePercentageItem : TemplateItem :=
  mkItem (js "disposal") 10 Percentage exampleRules.

Definition exampleScoreItem : TemplateItem :=
  mkItem (js "marks") 20 Score [].

Definition exampleTemplate : Template :=
  mkTemplate (js "tpl-1") (js "Tehsildar KPIs") (js "revenue-department")
             (js "tehsildar") [examplePercentageItem; exampleScoreItem].

(** The threshold of a rule whose [value] is a number (0 otherwise). *)
Definition thresholdOf (r : ScoringRule) : Q :=
  match ruleThreshold r with
  | Some q => q
  | None => 0
  end.

(** A percentage item whose rules all carry a numeric [value]. *)
Definition thresholdShaped (item : TemplateItem) : Prop :=
  Forall (fun r => ruleThreshold r <> None) (item_scoringRules item).

(** The score of the first rule of [sorted] whose threshold is at most the input. *)
Definition firstAtMost (inputValue : Q) (sorted : list ScoringRule) : Q :=
  match find (fun r => Qle_bool (thresholdOf r) inputValue) sorted with
  | Some r => rule_score r
  | None => 0
  end.




(** A template whose percentage items all have numeric rule values. *)
Definition wellShaped (template : Template) : Prop :=
  Forall (fun item => item_kpiType item = Percentage -> thresholdShaped item)
         (tpl_template template).

(** The identity resolution of a record, which does not depend on the store:
    the reason for skipping it, or the member, the [kpiRef] of the entry and
    the court of the duplicate check. *)
Definition resolveRecord (svc : IdentityService) (record : CsvKpiData)
  : DetailMessage + (Member * KpiRef * option jsstring) :=
  match courtName record with
  | Some ((_ :: _) as court) =>
    match fetchMemberByName svc (officerName record) with
    | None => inl MsgMemberNotFound
    | Some member =>
      match find (isCourtRef court) (orElse (member_kpiRef member) []) with
      | None => inl (MsgCourtNotInKpiRef court)
      | Some matchingCourtRef => inr (member, matchingCourtRef, Some court)
      end
    end
  | _ =>
    match fetchMemberByName svc (officerName record) with
    | None => inl MsgMemberNotFound
    | Some member =>
      inr (member,
           match member_kpiRef member with
           | Some (first :: _) => first
           | _ => mkKpiRef (js "area") (js "raipur")
           end,
           None)
    end
  end.

Definition existsMessage (court : option jsstring) : DetailMessage :=
  match court with
  | Some c => MsgEntryExistsForCourt c
  | None => MsgEntryExists
  end.

Definition createdMessage (court : option jsstring) : DetailMessage :=
  match court with
  | Some c => MsgCreatedForCourt c
  | None => MsgCreated
  end.

(** The counters of a result, as a sum. *)
Definition counted (r : MigrationResult) : nat :=
  successfulEntries r + failedEntries r + skippedEntries r.

(** An identity service with two officers named alike, and a few records. *)
Definition courtRaipur : jsstring := js "तहसील रायपुर".
Definition courtArang : jsstring := js "तहसील आरंग".

Definition memberRam : Member :=
  mkMember (js "user-1") (Some [mkKpiRef (js "court") courtRaipur]) (js "राम").
Definition memberRamArang : Member :=
  mkMember (js "user-2") (Some [mkKpiRef (js "court") courtArang]) (js "राम").
Definition memberShyam : Member :=
  mkMember (js "user-3") None (js "श्याम").

Definition exampleIdentity : IdentityService :=
  mkIdentity
    (fun name =>
       if jseqb name (js "राम") then Some memberRam
       else if jseqb name (js "श्याम") then Some memberShyam
       else None)
    (Some [memberRam; memberRamArang; memberShyam]).

Definition recordCreated : CsvKpiData :=
  mkCsvKpiData (js "राम") (Some courtRaipur) [(js "disposal", 96)].
Definition recordUnknownOfficer : CsvKpiData :=
  mkCsvKpiData (js "मोहन") None [(js "disposal", 75)].
Definition recordUnknownItem : CsvKpiData :=
  mkCsvKpiData (js "श्याम") None [(js "seemankan", 40)].

Definition emptyWorld : World := mkWorld [] 1.

(** A tehsildar CSV with one data row, and a template that scores its KPI. *)
Definition exampleCsv : jsstring :=
  js "पीठासीन अधिकारी,न्यायालय,खाता विभाजन,,
,,कुल दर्ज,कुल निराकृत,कुल लंबित
राम,तहसील रायपुर,100,96,4
".

Definition tehsildarTemplate : Template :=
  mkTemplate (js "tpl-2") (js "Tehsildar court KPIs") (js "revenue-department")
             (js "tehsildar")
             [mkItem (js "खाता विभाजन (विवादित + अविवादित)") 10 Percentage
                     exampleRules].

Definition exampleMigrate (templateId : jsstring) (w : World)
  : Outcome (MigrationResult * World) :=
  migrateCsvData asciiLower decimalNumber [exampleTemplate; tehsildarTemplate]
    exampleIdentity exampleCsv 4 2024 templateId (js "revenue-department")
    (js "tehsildar") (js "admin") w.

Definition exampleFirstRun : MigrationResult * World :=
  Eval vm_compute in
    match exampleMigrate (js "tpl-2") emptyWorld with
    | Returned x => x
    | _ => (mkResult 0 0 0 0 [] [], emptyWorld)
    end.

Definition exampleFailedRun : MigrationResult * World :=
  Eval vm_compute in
    match exampleMigrate (js "tpl-1") emptyWorld with
    | Returned x => x
    | _ => (mkResult 0 0 0 0 [] [], emptyWorld)
    end.






(** The department list the rankings filter by. *)
Definition finalDepartmentsOf (filters : StatisticsFilters) : list jsstring :=
  let departments := orElse (f_departments filters) defaultDepartments in
  match departments with
  | [] => defaultDepartments
  | _ => departments
  end.

(** The employees of the filtered entries, in order of first appearance. *)
Definition groupedEmployees (templates : list Template) (w : World)
  (filters : StatisticsFilters) : list EmployeeScore :=
  map snd
    (fold_left
       (groupEntry templates (finalDepartmentsOf filters)
                   (orElse (f_excludeDepartments filters) [])
                   (orElse (f_roles filters) [])
                   (orElse (f_excludeRoles filters) []))
       (filter (matchesQuery (f_month filters) (f_year filters)) (entries w))
       []).

(** The full ranked list the page is cut from. *)
Definition allRankings (templates : list Template) (w : World)
  (filters : StatisticsFilters) : list EmployeeRanking :=
  addRanks 0 (sortDesc snd (map withPercentage (groupedEmployees templates w filters))).

Definition unranked (rk : EmployeeRanking) : EmployeeScore * Q :=
  (rk_employee rk, rk_percentageScore rk).

(** Three employees scoring 7, 5 and 9 out of 10, and one entry not yet
    generated. *)
Definition rankTemplate : Template :=
  mkTemplate (js "tpl-r") (js "Marks") (js "revenue-department") (js "sdm")
             [mkItem (js "marks") 10 Score []].

Definition rankEntry (id : N) (status : Status) (total : Q) (employee : string)
  : KpiEntry :=
  mkEntry id 4 2024 (js "tpl-r") (mkKpiRef (js "area") (js "raipur")) []
          status total (js "admin") (js employee).

Definition rankWorld : World :=
  mkWorld [rankEntry 1 Generated 7 "emp-70"; rankEntry 2 Generated 5 "emp-50";
           rankEntry 3 Created 10 "emp-100"; rankEntry 4 Generated 9 "emp-90"]
          5.

Definition firstPageOfTwo : StatisticsFilters :=
  mkFilters None None None None None None (Some 2%Z) (Some 1%Z).

(** An SDM CSV: the first KPI of the SDM configuration, 96 disposed of 100
    registered. *)
Definition sdmCsv : jsstring :=
  js "पीठासीन अधिकारी,न्यायालय,व्यपवर्तन,,
,,कुल दर्ज,कुल निराकृत,कुल लंबित
राम,रायपुर,100,96,4
".

Definition sdmHeaders : list jsstring :=
  split comma (js "पीठासीन अधिकारी,न्यायालय,व्यपवर्तन,,").

Definition sdmSubHeaders : list jsstring :=
  split comma (js ",,कुल दर्ज,कुल निराकृत,कुल लंबित").

Definition sdmRow : list jsstring :=
  split comma (js "राम,रायपुर,100,96,4").

Definition sdmMapping : HeaderMapping :=
  mkHeaderMapping (js "व्यपवर्तन") (js "व्यपवर्तन") 1.

(** The value the positional rule gives for a block starting at [baseIndex]. *)
Definition percentageAt (values : list jsstring) (baseIndex : nat) : option Q :=
  match trimmedAt values baseIndex, trimmedAt values (baseIndex + 1) with
  | Some registeredValue, Some disposedValue =>
    match parseInt registeredValue, parseInt disposedValue with
    | Some registered, Some disposed =>
      if (0 <? registered)%Z
      then Some (num_div
                   (num_round
                      (num_mul
                         (num_min
                            (num_mul (num_div (inject_Z disposed)
                                              (inject_Z registered)) 100)
                            100)
                         100))
                   100)
      else None
    | _, _ => None
    end
  | _, _ => None
  end.

(** A tehsildar CSV whose second line already carries an officer's figures. *)
Definition dataOnSecondLineCsv : jsstring :=
  js "पीठासीन अधिकारी,न्यायालय,खाता विभाजन,,
राम,तहसील रायपुर,100,96,4
श्याम,तहसील आरंग,50,25,25
".

Definition khataVibhajan : jsstring := js "खाता विभाजन (विवादित + अविवादित)".

(* ================================================================== *)
(** ** Further operations of the services *)

(** [validateTemplateCompleteness]: every template item provided, and
    nothing else. *)
Definition validateTemplateCompleteness (template : Template)
  (names : list jsstring) : Outcome unit :=
  let requiredNames := map item_name (tpl_template template) in
  let missingItems :=
    filter (fun name => negb (existsb (jseqb name) names)) requiredNames in
  match missingItems with
  | _ :: _ => Thrown (MissingKpiItems missingItems)
  | [] =>
    let extraItems :=
      filter (fun name => negb (existsb (jseqb name) requiredNames)) names in
    match extraItems with
    | [] => Returned tt
    | _ => Thrown (InvalidKpiItems extraItems)
    end
  end.

(** The edit distance by recursion on the two strings (insertions,
    deletions and substitutions of cost 1). *)
Fixpoint editDistance (s t : jsstring) : nat :=
  match s with
  | [] => List.length t
  | a :: s' =>
    (fix inner (t : jsstring) : nat :=
       match t with
       | [] => List.length s
       | b :: t' =>
         Nat.min (Nat.min (editDistance s' t + 1) (inner t' + 1))
                 (editDistance s' t' + if (a =? b)%N then O else 1%nat)
       end) t
  end.

(** The row of the matrix for the part [r2] of the second string already
    read (last unit first): one cell for the prefix read so far ([rdone],
    last unit first) and one for each longer prefix. *)
Fixpoint distanceRow (rdone rest r2 : jsstring) : list nat :=
  editDistance rdone r2
  :: match rest with
     | [] => []
     | c :: rest' => distanceRow (c :: rdone) rest' r2
     end.

(** The key of the uniqueness pre-checks:
    [(createdFor, month, year, templateId, kpiRef.value)]. *)
Definition entryKey (e : KpiEntry) : jsstring * Z * Z * jsstring * jsstring :=
  (entry_createdFor e, entry_month e, entry_year e, entry_templateId e,
   ref_value (entry_kpiRef e)).

(** Ids are distinct and below the generator. *)
Definition idsFresh (w : World) : Prop :=
  NoDup (map entry_id (entries w))
  /\ Forall (fun e => (entry_id e < idCounter w)%N) (entries w).

Inductive CreateError : Type :=
| CreateTemplateNotFound
| CreateAlreadyExists
| CreateFetchFailed
| CreateTypeError
| CreateValidationFailed (paths : list jsstring).

(** The documents of [insertMany]: one per reference of the member, each
    with the schema defaults and a fresh id. *)
Fixpoint newEntries (id : N) (month year : Z)
  (templateId createdBy createdFor : jsstring) (refs : list KpiRef)
  : list KpiEntry :=
  match refs with
  | [] => []
  | kpi :: rest =>
    mkEntry id month year templateId kpi [] Created 0 createdBy createdFor
    :: newEntries (N.succ id) month year templateId createdBy createdFor rest
  end.

(** [KpiEntryService.createKpiEntry]; [memberById] is
    [GET /members/{id}] ([None] when the request fails or answers no member). *)
Definition createKpiEntry (templates : list Template)
  (memberById : jsstring -> option Member) (w : World) (month year : Z)
  (templateId createdBy createdFor : jsstring)
  : (CreateError + list KpiEntry) * World :=
  match findTemplateById templates templateId with
  | None => (inl CreateTemplateNotFound, w)
  | Some _ =>
    if entryExists w createdFor month year templateId None
    then (inl CreateAlreadyExists, w)
    else
      match memberById createdFor with
      | None => (inl CreateFetchFailed, w)
      | Some member =>
        match member_kpiRef member with
        | None => (inl CreateTypeError, w)
        | Some refs =>
          let docs := newEntries (idCounter w) month year templateId createdBy
                                 createdFor refs in
          let w1 := mkWorld (entries w)
                            (idCounter w + N.of_nat (List.length refs))%N in
          match filter (fun d => match schemaErrors d with
                                 | [] => false
                                 | _ => true
                                 end)
                       docs with
          | [] => (inr docs, mkWorld (entries w ++ docs) (idCounter w1))
          | invalid :: _ =>
            (inl (CreateValidationFailed (schemaErrors invalid)), w1)
          end
        end
      end
  end.

(** [findByIdAndDelete(id)] *)
Definition deleteKpiEntry (w : World) (id : N) : option KpiEntry * World :=
  match findIndex (fun e => (entry_id e =? id)%N) (entries w) with
  | None => (None, w)
  | Some i =>
    (nth_error (entries w) i,
     mkWorld (firstn i (entries w) ++ skipn (S i) (entries w)) (idCounter w))
  end.

(** The value stored under a name in a list of submitted values: the last
    one, as a [Map] keeps it. *)
Fixpoint lastValue (name : jsstring) (values : list RawValue) : option Value :=
  match values with
  | [] => None
  | v :: rest =>
    match lastValue name rest with
    | Some x => Some x
    | None => if jseqb (raw_name v) name then Some (raw_value v) else None
    end
  end.

Definition rawOfScored (v : ScoredValue) : RawValue :=
  mkRaw (sv_name v) (sv_value v).

(** Every value is within the domain of the template item of its name. *)
Definition valuesInDomain (template : Template) (values : list ScoredValue)
  : Prop :=
  Forall (fun v =>
            exists item,
              findItem template (sv_name v) = Some item
              /\ validateValueByType item (sv_value v) = Returned tt)
         values.

(* ================================================================== *)
(** ** Cohorts and grouped statistics ([KpiEntryStatistics]) *)

(** [{...filters, limit: 1000, page: 1}] *)
Definition unboundedFilters (filters : StatisticsFilters) : StatisticsFilters :=
  mkFilters (f_month filters) (f_year filters) (f_departments filters)
            (f_roles filters) (f_excludeDepartments filters)
            (f_excludeRoles filters) (Some 1000%Z) (Some 1%Z).

(** [Math.ceil(totalEmployees * 0.05)] *)
Definition fivePercentCount (totalEmployees : nat) : nat :=
  Z.to_nat (Qceiling (inject_Z (Z.of_nat totalEmployees) * (5 # 100))).

Record Cohort : Type := mkCohort {
  co_count : nat;
  co_performers : list EmployeeRanking;
  co_cutoffScore : Q;
  co_averageScore : Q
}.

(** The [cutoffScore] and [averageScore] of a list of performers. *)
Definition cohortOf (cohortCount : nat) (performers : list EmployeeRanking)
  : Cohort :=
  mkCohort cohortCount performers
    (match performers with
     | [] => 0
     | _ => rk_percentageScore (last performers (mkRanking
              (mkEmployeeScore [] [] [] 0 0 []) 0 0))
     end)
    (match performers with
     | [] => 0
     | _ => num_div (num_sum (map rk_percentageScore performers))
                    (inject_Z (Z.of_nat (List.length performers)))
     end).

Definition topCohort (rankings : list EmployeeRanking) (totalEmployees : nat)
  : Cohort :=
  let cohortCount := fivePercentCount totalEmployees in
  cohortOf cohortCount (jsSlice rankings 0 (Z.of_nat cohortCount)).

Definition bottomCohort (rankings : list EmployeeRanking) (totalEmployees : nat)
  : Cohort :=
  let cohortCount := fivePercentCount totalEmployees in
  cohortOf cohortCount
    (rev (jsSlice rankings (- Z.of_nat cohortCount)
                  (Z.of_nat (List.length rankings)))).

Record CohortReport : Type := mkCohortReport {
  cr_totalEmployees : nat;
  cr_cohort : Cohort
}.

Definition getTop5Percent (templates : list Template) (w : World)
  (filters : StatisticsFilters) : CohortReport :=
  let rankings := getEmployeeRankings templates w (unboundedFilters filters) in
  mkCohortReport (pg_total rankings)
                 (topCohort (pg_rankings rankings) (pg_total rankings)).

Definition getBottom5Percent (templates : list Template) (w : World)
  (filters : StatisticsFilters) : CohortReport :=
  let rankings := getEmployeeRankings templates w (unboundedFilters filters) in
  mkCohortReport (pg_total rankings)
                 (bottomCohort (pg_rankings rankings) (pg_total rankings)).

Record ScoreDistribution : Type := mkDistribution {
  sd_excellent : nat;
  sd_good : nat;
  sd_average : nat;
  sd_poor : nat
}.

(** The bucket a percentage is counted in. *)
Definition categorize (d : ScoreDistribution) (percentageScore : Q)
  : ScoreDistribution :=
  if Qle_bool 90 percentageScore
  then mkDistribution (S (sd_excellent d)) (sd_good d) (sd_average d) (sd_poor d)
  else if Qle_bool 70 percentageScore
  then mkDistribution (sd_excellent d) (S (sd_good d)) (sd_average d) (sd_poor d)
  else if Qle_bool 50 percentageScore
  then mkDistribution (sd_excellent d) (sd_good d) (S (sd_average d)) (sd_poor d)
  else mkDistribution (sd_excellent d) (sd_good d) (sd_average d) (S (sd_poor d)).

Record GroupStatistics : Type := mkGroupStatistics {
  gs_key : jsstring;
  gs_totalEmployees : nat;
  gs_averageScore : Q;
  gs_rankings : list EmployeeRanking;
  gs_top5Percent : Cohort;
  gs_bottom5Percent : Cohort;
  gs_scoreDistribution : ScoreDistribution
}.

Definition emptyCohort : Cohort := mkCohort 0 [] 0 0.

(** The first loop of [getDepartmentStatistics] and [getRoleStatistics]:
    count the ranking under its department (or role). *)
Definition accumulateGroup (keyOf : EmployeeRanking -> jsstring)
  (stats : list (jsstring * GroupStatistics)) (ranking : EmployeeRanking)
  : list (jsstring * GroupStatistics) :=
  let g :=
    match getKey stats (keyOf ranking) with
    | Some g => g
    | None => mkGroupStatistics (keyOf ranking) 0 0 [] emptyCohort emptyCohort
                                (mkDistribution 0 0 0 0)
    end in
  setKey stats (keyOf ranking)
    (mkGroupStatistics (gs_key g) (S (gs_totalEmployees g))
       (num_add (gs_averageScore g) (rk_percentageScore ranking))
       (gs_rankings g ++ [ranking])
       (gs_top5Percent g) (gs_bottom5Percent g)
       (categorize (gs_scoreDistribution g) (rk_percentageScore ranking))).

(** The second loop: averages, cohorts and the sorted rankings of a group. *)
Definition finishGroup (keyOf : EmployeeRanking -> jsstring)
  (allRankings : list EmployeeRanking) (g : GroupStatistics) : GroupStatistics :=
  let allPerformers :=
    sortDesc rk_percentageScore
             (filter (fun ranking => jseqb (keyOf ranking) (gs_key g)) allRankings) in
  mkGroupStatistics (gs_key g) (gs_totalEmployees g)
    (if (0 <? gs_totalEmployees g)%nat
     then num_div (gs_averageScore g) (inject_Z (Z.of_nat (gs_totalEmployees g)))
     else 0)
    (sortDesc rk_percentageScore (gs_rankings g))
    (topCohort allPerformers (gs_totalEmployees g))
    (bottomCohort allPerformers (gs_totalEmployees g))
    (gs_scoreDistribution g).

Definition groupStatistics (keyOf : EmployeeRanking -> jsstring)
  (allRankings : list EmployeeRanking) : list GroupStatistics :=
  map (fun kv => finishGroup keyOf allRankings (snd kv))
      (fold_left (accumulateGroup keyOf) allRankings []).

Definition getDepartmentStatistics (templates : list Template) (w : World)
  (filters : StatisticsFilters) : list GroupStatistics :=
  groupStatistics (fun ranking => emp_departmentSlug (rk_employee ranking))
    (pg_rankings (getEmployeeRankings templates w (unboundedFilters filters))).

Definition getRoleStatistics (templates : list Template) (w : World)
  (filters : StatisticsFilters) : list GroupStatistics :=
  groupStatistics (fun ranking => emp_role (rk_employee ranking))
    (pg_rankings (getEmployeeRankings templates w (unboundedFilters filters))).

(** Does an entry reach the grouping of the rankings? *)
Definition countedEntry (templates : list Template)
  (finalDepartments excludeDepartments finalRoles excludeRoles : list jsstring)
  (entry : KpiEntry) : bool :=
  match findTemplateById templates (entry_templateId entry) with
  | None => false
  | Some template =>
    departmentMatch finalDepartments excludeDepartments template
    && roleMatch finalRoles excludeRoles template
  end.

(* ================================================================== *)
(** ** Monthly report ([MonthlyReportService.generateMonthlyReport]) *)

Record MonthlyReportResult : Type := mkReport {
  mr_totalEntries : nat;
  mr_updatedEntries : nat;
  mr_skippedEntries : nat;
  mr_created : nat;
  mr_initiated : nat;
  mr_generated : nat
}.

(** The query of the report: month, year, status created or initiated, and
    a template of the department when one is given. *)
Definition reportQuery (templates : list Template) (month year : Z)
  (department : option jsstring) (e : KpiEntry) : bool :=
  (entry_month e =? month)%Z && (entry_year e =? year)%Z
  && match entry_status e with Generated => false | _ => true end
  && match department with
     | Some ((_ :: _) as d) =>
       existsb (fun t => jseqb (tpl_departmentSlug t) d
                         && jseqb (tpl_id t) (entry_templateId e))
               templates
     | _ => true
     end.

(** The loop over the entries found: mark as generated those with a
    template and at least one value, skip the others. *)
Definition reportStep (templates : list Template)
  (st : World * (nat * nat * nat * nat)) (entry : KpiEntry)
  : World * (nat * nat * nat * nat) :=
  let '(w, (updated, skipped, created, initiated)) := st in
  match findTemplateById templates (entry_templateId entry) with
  | None => (w, (updated, S skipped, created, initiated))
  | Some _ =>
    match entry_values entry with
    | _ :: _ =>
      (snd (findByIdAndUpdate w (entry_id entry) (setStatus Generated)),
       (S updated, skipped,
        match entry_status entry with Created => S created | _ => created end,
        match entry_status entry with Initiated => S initiated | _ => initiated end))
    | [] => (w, (updated, S skipped, created, initiated))
    end
  end.

Definition countStatus (w : World) (month year : Z) (status : Status) : nat :=
  List.length
    (filter (fun e => (entry_month e =? month)%Z && (entry_year e =? year)%Z
                      && match entry_status e, status with
                         | Created, Created | Initiated, Initiated
                         | Generated, Generated => true
                         | _, _ => false
                         end)
            (entries w)).

(** A count of the final aggregation replaces the loop's count only when
    the aggregation has a group for that status. *)
Definition orCount (final fromLoop : nat) : nat :=
  match final with O => fromLoop | _ => final end.

Definition generateMonthlyReport (templates : list Template) (w : World)
  (month year : Z) (department : option jsstring)
  : MonthlyReportResult * World :=
  let entriesToUpdate :=
    filter (reportQuery templates month year department) (entries w) in
  match entriesToUpdate with
  | [] => (mkReport 0 0 0 0 0 0, w)
  | _ =>
    let '(w', (updated, skipped, created, initiated)) :=
      fold_left (reportStep templates) entriesToUpdate (w, (0, 0, 0, 0))%nat in
    (mkReport (List.length entriesToUpdate) updated skipped
              (orCount (countStatus w' month year Created) created)
              (orCount (countStatus w' month year Initiated) initiated)
              (orCount (countStatus w' month year Generated) 0),
     w')
  end.

(** The values [validateAndCalculateScores] accepts. *)
Definition acceptable (template : Template) (raw : RawValue) : Prop :=
  exists item,
    findItem template (raw_name raw) = Some item
    /\ validateValueByType item (raw_value raw) = Returned tt.

(* ================================================================== *)
(** * Properties *)

Unset Implicit Arguments.

(** ** Strings *)

Lemma jseqb_refl (s : jsstring) : jseqb s s = true.
Proof.
  induction s as [|c s IH]; simpl; [reflexivity|].
  now rewrite N.eqb_refl, IH.
Qed.

Lemma jseqb_eq (a b : jsstring) : jseqb a b = true <-> a = b.
Proof.
  split.
  - revert b; induction a as [|x a IH]; intros [|y b] H; simpl in H;
      try discriminate; [reflexivity|].
    apply andb_true_iff in H as [Hxy Hab].
    apply N.eqb_eq in Hxy. apply IH in Hab. now subst.
  - intros ->. apply jseqb_refl.
Qed.


(** ** Numbers *)

Lemma num_ltb_true (a b : Q) : num_ltb a b = true <-> a < b.
Proof.
  unfold num_ltb. rewrite negb_true_iff.
  split; intros H.
  - apply Qnot_le_lt. intros Hle. apply Qle_bool_iff in Hle. congruence.
  - destruct (Qle_bool b a) eqn:E; [|reflexivity].
    apply Qle_bool_iff in E. exfalso. apply (Qlt_not_le _ _ H E).
Qed.

Lemma num_ltb_false (a b : Q) : num_ltb a b = false <-> b <= a.
Proof.
  unfold num_ltb. rewrite negb_false_iff. apply Qle_bool_iff.
Qed.

Lemma num_min_le (v m : Q) : v <= m -> num_min v m = v.
Proof.
  intros H. unfold num_min. apply Qle_bool_iff in H. now rewrite H.
Qed.

(** ** The stable descending sort *)

Section StableSortFacts.
Variable A : Type.
Variable key : A -> Q.

Lemma insertDesc_perm (x : A) (l : list A) :
  Permutation (insertDesc key x l) (x :: l).
Proof.
  induction l as [|h t IH]; simpl; [reflexivity|].
  destruct (num_ltb (key x) (key h)); [|reflexivity].
  rewrite IH. apply perm_swap.
Qed.

Lemma sortDesc_perm (l : list A) : Permutation (sortDesc key l) l.
Proof.
  induction l as [|x r IH]; simpl; [reflexivity|].
  rewrite insertDesc_perm. now constructor.
Qed.

Lemma insertDesc_sorted (x : A) (l : list A) :
  StronglySorted (descending key) l -> StronglySorted (descending key) (insertDesc key x l).
Proof.
  induction 1 as [|h t Hs IH Hall]; simpl.
  - repeat constructor.
  - destruct (num_ltb (key x) (key h)) eqn:E.
    + constructor; [exact IH|].
      apply (@Permutation_Forall _ _ (x :: t)).
      * symmetry. apply insertDesc_perm.
      * constructor; [|exact Hall].
        apply num_ltb_true in E. unfold descending. now apply Qlt_le_weak.
    + apply num_ltb_false in E.
      constructor; [now constructor|].
      constructor; [exact E|].
      eapply Forall_impl; [|exact Hall].
      intros a Ha. unfold descending in *. now apply Qle_trans with (key h).
Qed.

Lemma sortDesc_sorted (l : list A) : StronglySorted (descending key) (sortDesc key l).
Proof.
  induction l as [|x r IH]; simpl; [constructor|].
  now apply insertDesc_sorted.
Qed.

(** Stability: the elements of any one key keep their relative order. *)
Lemma insertDesc_stable (k : Q) (x : A) (l : list A) :
  filter (fun a => Qeq_bool (key a) k) (insertDesc key x l)
  = filter (fun a => Qeq_bool (key a) k) (x :: l).
Proof.
  induction l as [|h t IH]; [reflexivity|].
  cbn [insertDesc].
  destruct (num_ltb (key x) (key h)) eqn:E; [|reflexivity].
  cbn [filter] in *. rewrite IH.
  destruct (Qeq_bool (key x) k) eqn:Ex; [|reflexivity].
  destruct (Qeq_bool (key h) k) eqn:Eh; [|reflexivity].
  apply Qeq_bool_iff in Ex, Eh. apply num_ltb_true in E.
  rewrite Ex, Eh in E. exfalso. apply (Qlt_irrefl _ E).
Qed.

Lemma sortDesc_stable (k : Q) (l : list A) :
  filter (fun a => Qeq_bool (key a) k) (sortDesc key l)
  = filter (fun a => Qeq_bool (key a) k) l.
Proof.
  induction l as [|x r IH]; [reflexivity|].
  cbn [sortDesc]. rewrite insertDesc_stable. cbn [filter]. now rewrite IH.
Qed.

(** What [find] sees after one more insertion into a sorted list. *)
Lemma find_insertDesc (p : A -> bool) (x : A) (s : list A) :
  StronglySorted (descending key) s ->
  find p (insertDesc key x s)
  = match find p s with
    | None => if p x then Some x else None
    | Some h => if p x && negb (num_ltb (key x) (key h)) then Some x else Some h
    end.
Proof.
  induction 1 as [|h0 t Hs IH Hall]; cbn [insertDesc find].
  - now destruct (p x).
  - destruct (num_ltb (key x) (key h0)) eqn:E; cbn [find].
    + destruct (p h0) eqn:Eh.
      * rewrite E. cbn. now rewrite andb_false_r.
      * exact IH.
    + destruct (p x) eqn:Ex.
      * destruct (p h0) eqn:Eh.
        -- now rewrite E.
        -- destruct (find p t) as [h|] eqn:Ef; [|reflexivity].
           apply find_some in Ef as [Hin _].
           rewrite Forall_forall in Hall. specialize (Hall _ Hin).
           apply num_ltb_false in E. unfold descending in Hall.
           assert (Hle : key h <= key x) by now apply Qle_trans with (key h0).
           apply num_ltb_false in Hle. now rewrite Hle.
      * destruct (p h0); [reflexivity|]. now destruct (find p t).
Qed.

End StableSortFacts.

(** ** Scoring engine *)

Lemma thresholds_shaped (rules : list ScoringRule) :
  Forall (fun r => ruleThreshold r <> None) rules ->
  thresholds rules = Some (map (fun r => (thresholdOf r, r)) rules).
Proof.
  induction 1 as [|r rs Hr _ IH]; [reflexivity|].
  cbn [thresholds map]. rewrite IH. unfold thresholdOf.
  destruct (ruleThreshold r); [reflexivity | contradiction].
Qed.

Lemma sortDesc_keyed {A} (f : A -> Q) (l : list A) :
  sortDesc fst (map (fun r => (f r, r)) l)
  = map (fun r => (f r, r)) (sortDesc f l).
Proof.
  induction l as [|x r IH]; [reflexivity|].
  cbn [map sortDesc]. rewrite IH. clear IH.
  induction (sortDesc f r) as [|h t IHt]; [reflexivity|].
  cbn [map insertDesc fst].
  destruct (num_ltb (f x) (f h)); cbn [map]; [now rewrite IHt | reflexivity].
Qed.

Lemma find_keyed {A} (f : A -> Q) (v : Q) (l : list A) :
  find (fun kr => Qle_bool (fst kr) v) (map (fun r => (f r, r)) l)
  = option_map (fun r => (f r, r)) (find (fun r => Qle_bool (f r) v) l).
Proof.
  induction l as [|x r IH]; [reflexivity|].
  cbn [map find fst]. now destruct (Qle_bool (f x) v).
Qed.

Lemma calculateScore_percentage (item : TemplateItem) (v : Q) :
  item_kpiType item = Percentage ->
  thresholdShaped item ->
  calculateScore item (VNum v)
  = Returned (firstAtMost v (sortDesc thresholdOf (item_scoringRules item))).
Proof.
  intros Hty Hshape. unfold calculateScore. rewrite Hty.
  rewrite (thresholds_shaped _ Hshape), sortDesc_keyed, find_keyed.
  unfold firstAtMost.
  now destruct (find _ (sortDesc thresholdOf (item_scoringRules item))).
Qed.

Lemma find_sorted_greatest {A} (key : A -> Q) (p : A -> bool) (s : list A) (r : A) :
  StronglySorted (descending key) s ->
  find p s = Some r ->
  forall r', In r' s -> p r' = true -> key r' <= key r.
Proof.
  induction 1 as [|h t Hs IH Hall]; cbn [find]; [discriminate|].
  intros Hf r' Hin Hp.
  destruct (p h) eqn:Eh.
  - injection Hf as <-. destruct Hin as [<- | Hin]; [apply Qle_refl|].
    rewrite Forall_forall in Hall. exact (Hall _ Hin).
  - destruct Hin as [<- | Hin]; [congruence|]. now apply IH.
Qed.

(** The first applicable rule of the sorted list is the applicable rule with
    the greatest threshold. *)
Lemma firstAtMost_greatest (v : Q) (rules : list ScoringRule) :
  (exists r, In r rules /\ thresholdOf r <= v
             /\ firstAtMost v (sortDesc thresholdOf rules) = rule_score r
             /\ forall r', In r' rules -> thresholdOf r' <= v ->
                           thresholdOf r' <= thresholdOf r)
  \/ ((forall r, In r rules -> v < thresholdOf r)
      /\ firstAtMost v (sortDesc thresholdOf rules) = 0).
Proof.
  unfold firstAtMost.
  pose proof (sortDesc_perm _ thresholdOf rules) as Hperm.
  pose proof (sortDesc_sorted _ thresholdOf rules) as Hsorted.
  destruct (find _ (sortDesc thresholdOf rules)) as [r|] eqn:Ef.
  - left. exists r.
    pose proof (find_some _ _ Ef) as [Hin Hle].
    split; [now apply (Permutation_in _ Hperm)|].
    split; [now apply Qle_bool_iff|].
    split; [reflexivity|].
    intros r' Hin' Hle'.
    apply (@find_sorted_greatest _ thresholdOf
             (fun r => Qle_bool (thresholdOf r) v) _ _ Hsorted Ef).
    + now apply (Permutation_in _ (Permutation_sym Hperm)).
    + now apply Qle_bool_iff.
  - right. split; [|reflexivity].
    intros r Hin.
    apply (Permutation_in _ (Permutation_sym Hperm)) in Hin.
    pose proof (find_none _ _ Ef _ Hin) as Hn. cbn in Hn.
    apply Qnot_le_lt. intros Hle. apply Qle_bool_iff in Hle. congruence.
Qed.

Lemma validate_percentage_number (item : TemplateItem) (value : Value) :
  item_kpiType item = Percentage ->
  validateValueByType item value = Returned tt ->
  exists v, value = VNum v /\ 0 <= v /\ v <= 100.
Proof.
  unfold validateValueByType. intros ->.
  destruct value as [v|s]; [|discriminate].
  destruct (num_ltb v 0) eqn:E0; [discriminate|].
  destruct (num_ltb 100 v) eqn:E1; [discriminate|].
  intros _. exists v. apply num_ltb_false in E0, E1. auto.
Qed.

Lemma validate_percentage_in_range (item : TemplateItem) (v : Q) :
  item_kpiType item = Percentage -> 0 <= v -> v <= 100 ->
  validateValueByType item (VNum v) = Returned tt.
Proof.
  intros Hty H0 H1. unfold validateValueByType. rewrite Hty.
  apply num_ltb_false in H0, H1. now rewrite H0, H1.
Qed.

Lemma validateAndCalculateScores_cons (template : Template) (raw : RawValue)
  (rest : list RawValue) (out : list ScoredValue) :
  validateAndCalculateScores template (raw :: rest) = Returned out ->
  exists item score out',
    findItem template (raw_name raw) = Some item
    /\ validateValueByType item (raw_value raw) = Returned tt
    /\ calculateScore item (raw_value raw) = Returned score
    /\ validateAndCalculateScores template rest = Returned out'
    /\ out = mkScored (raw_name raw) (raw_value raw) score :: out'.
Proof.
  cbn [validateAndCalculateScores].
  destruct (findItem template (raw_name raw)) as [item|]; [|discriminate].
  destruct (validateValueByType item (raw_value raw)) as [[]| |] eqn:Ev;
    cbn [bind]; try discriminate.
  destruct (calculateScore item (raw_value raw)) as [score| |] eqn:Ec;
    cbn [bind]; try discriminate.
  destruct (validateAndCalculateScores template rest) as [out'| |] eqn:Er;
    cbn [bind]; try discriminate.
  intros [= <-]. now exists item, score, out'.
Qed.

(** C1: a percentage item is scored by sorting its rules by descending
    [value] and taking the score of the first rule whose [value] is at most
    the input, 0 when there is none.  In every list that
    [validateAndCalculateScores] accepts, each percentage item with numeric
    rule values carries that score; the sorted list is a descending
    permutation of the rules; a single in-range value is accepted; and for
    the rules 90/10, 70/7, 50/5 the inputs 96, 75 and 40 score 10, 7 and 0. *)
Theorem percentage_score_first_threshold :
  (forall template values out,
     validateAndCalculateScores template values = Returned out ->
     Forall2
       (fun raw sv =>
          sv_name sv = raw_name raw /\ sv_value sv = raw_value raw
          /\ forall item,
               findItem template (raw_name raw) = Some item ->
               item_kpiType item = Percentage ->
               thresholdShaped item ->
               exists v, raw_value raw = VNum v
                 /\ sv_score sv
                    = firstAtMost v (sortDesc thresholdOf (item_scoringRules item)))
       values out)
  /\ (forall rules,
        Permutation (sortDesc thresholdOf rules) rules
        /\ StronglySorted (descending thresholdOf) (sortDesc thresholdOf rules))
  /\ (forall template name item v,
        findItem template name = Some item ->
        item_kpiType item = Percentage ->
        thresholdShaped item ->
        0 <= v -> v <= 100 ->
        validateAndCalculateScores template [mkRaw name (VNum v)]
        = Returned [mkScored name (VNum v)
                      (firstAtMost v (sortDesc thresholdOf (item_scoringRules item)))])
  /\ validateAndCalculateScores exampleTemplate [mkRaw (js "disposal") (VNum 96)]
     = Returned [mkScored (js "disposal") (VNum 96) 10]
  /\ validateAndCalculateScores exampleTemplate [mkRaw (js "disposal") (VNum 75)]
     = Returned [mkScored (js "disposal") (VNum 75) 7]
  /\ validateAndCalculateScores exampleTemplate [mkRaw (js "disposal") (VNum 40)]
     = Returned [mkScored (js "disposal") (VNum 40) 0].
Proof.
  split; [|split; [|split; [|repeat split; vm_compute; reflexivity]]].
  - intros template values. induction values as [|raw rest IH]; intros out Hout.
    + cbn in Hout. injection Hout as <-. constructor.
    + apply validateAndCalculateScores_cons in Hout
        as (item & score & out' & Hfind & Hval & Hscore & Hrest & ->).
      constructor; [|now apply IH].
      cbn [sv_name sv_value sv_score]. repeat split.
      intros item' Hfind' Hty Hshape.
      rewrite Hfind in Hfind'. injection Hfind' as <-.
      destruct (validate_percentage_number _ _ Hty Hval) as (v & Hv & _).
      exists v. split; [exact Hv|].
      rewrite Hv, (calculateScore_percentage _ _ Hty Hshape) in Hscore.
      now injection Hscore as <-.
  - intros rules. split; [apply sortDesc_perm | apply sortDesc_sorted].
  - intros template name item v Hfind Hty Hshape H0 H1.
    cbn [validateAndCalculateScores raw_name raw_value]. rewrite Hfind.
    rewrite (validate_percentage_in_range _ _ Hty H0 H1). cbn [bind].
    now rewrite (calculateScore_percentage _ _ Hty Hshape).
Qed.

Lemma percentage_score_first_threshold_witness :
  validateAndCalculateScores exampleTemplate [mkRaw (js "disposal") (VNum 96)]
  = Returned
      [mkScored (js "disposal") (VNum 96)
         (firstAtMost 96 (sortDesc thresholdOf
                            (item_scoringRules examplePercentageItem)))].
Proof.
  apply (proj1 (proj2 (proj2 percentage_score_first_threshold))).
  - reflexivity.
  - reflexivity.
  - repeat constructor; discriminate.
  - vm_compute; discriminate.
  - vm_compute; discriminate.
Defined.

Lemma findItem_name (template : Template) (name : jsstring) (item : TemplateItem) :
  findItem template name = Some item -> item_name item = name.
Proof.
  intros H. apply find_some in H as [_ H]. now apply jseqb_eq.
Qed.

(** C3 (as amended): for a score item [calculateScore] computes
    [min(value, maxMarks)]; [validateAndCalculateScores] returns that score,
    which is then the value itself, exactly for values in [0, maxMarks], and
    throws the out-of-range error for any other number. *)
Theorem score_item_min_within_domain (template : Template) (name : jsstring)
  (item : TemplateItem) (v : Q) :
  findItem template name = Some item ->
  item_kpiType item = Score ->
  calculateScore item (VNum v) = Returned (num_min v (item_maxMarks item))
  /\ (0 <= v -> v <= item_maxMarks item ->
      num_min v (item_maxMarks item) = v
      /\ validateAndCalculateScores template [mkRaw name (VNum v)]
         = Returned [mkScored name (VNum v) v])
  /\ (v < 0 \/ item_maxMarks item < v ->
      validateAndCalculateScores template [mkRaw name (VNum v)]
      = Thrown (ScoreOutOfRange name (item_maxMarks item))).
Proof.
  intros Hfind Hty.
  assert (Hcalc : calculateScore item (VNum v)
                  = Returned (num_min v (item_maxMarks item))).
  { unfold calculateScore. now rewrite Hty. }
  split; [exact Hcalc|]. split.
  - intros H0 H1. split; [now apply num_min_le|].
    cbn [validateAndCalculateScores raw_name raw_value]. rewrite Hfind.
    unfold validateValueByType. rewrite Hty.
    pose proof H0 as H0'. pose proof H1 as H1'.
    apply num_ltb_false in H0', H1'. rewrite H0', H1'. cbn [orb bind].
    rewrite Hcalc. cbn [bind]. now rewrite (num_min_le _ _ H1).
  - intros Hout.
    cbn [validateAndCalculateScores raw_name raw_value]. rewrite Hfind.
    unfold validateValueByType. rewrite Hty, (findItem_name _ _ _ Hfind).
    destruct Hout as [H | H]; apply num_ltb_true in H; rewrite H;
      [reflexivity | now rewrite orb_true_r].
Qed.

Lemma score_item_min_within_domain_witness :
  calculateScore exampleScoreItem (VNum 15) = Returned (num_min 15 20)
  /\ (0 <= 15 -> 15 <= 20 ->
      num_min 15 20 = 15
      /\ validateAndCalculateScores exampleTemplate [mkRaw (js "marks") (VNum 15)]
         = Returned [mkScored (js "marks") (VNum 15) 15])
  /\ (15 < 0 \/ 20 < 15 ->
      validateAndCalculateScores exampleTemplate [mkRaw (js "marks") (VNum 15)]
      = Thrown (ScoreOutOfRange (js "marks") 20)).
Proof.
  apply (score_item_min_within_domain exampleTemplate (js "marks")
           exampleScoreItem 15); reflexivity.
Defined.

(** C3, the claim as stated: with [maxMarks = 20] the value 25 is not given
    the score 20; validation rejects it. *)
Lemma score_25_of_20_is_rejected :
  validateAndCalculateScores exampleTemplate [mkRaw (js "marks") (VNum 25)]
  = Thrown (ScoreOutOfRange (js "marks") 20)
  /\ validateAndCalculateScores exampleTemplate [mkRaw (js "marks") (VNum 25)]
     <> Returned [mkScored (js "marks") (VNum 25) (num_min 25 20)].
Proof.
  split; [vm_compute; reflexivity | vm_compute; discriminate].
Qed.

(** ** Header normalizer *)

Section Normalizer.
Variable toLowerCase : jsstring -> jsstring.
Variable h : jsstring.



End Normalizer.

Lemma startsWith_prefix (s p : jsstring) :
  startsWith s p = true <-> exists rest, s = p ++ rest.
Proof.
  revert s. induction p as [|x p IH]; intros s; cbn [startsWith].
  - split; [intros _; now exists s | reflexivity].
  - destruct s as [|y s]; [split; [discriminate | intros [rest H]; discriminate]|].
    rewrite andb_true_iff, N.eqb_eq, IH. split.
    + intros [-> [rest ->]]. now exists rest.
    + intros [rest H]. injection H as -> ->. split; [reflexivity | now exists rest].
Qed.

(** [includes] is substring containment. *)
Lemma includes_substring (s sub : jsstring) :
  includes s sub = true <-> exists before after, s = before ++ sub ++ after.
Proof.
  induction s as [|c s IH]; cbn [includes]; rewrite orb_true_iff, startsWith_prefix.
  - split.
    + intros [[rest H] | H]; [|discriminate]. now exists [], rest.
    + intros ([|b before] & after & H); [left; now exists after | discriminate].
  - rewrite IH. split.
    + intros [[rest H] | (before & after & ->)]; [now exists [], rest|].
      now exists (c :: before), after.
    + intros ([|b before] & after & H); [left; now exists after|].
      right. injection H as _ ->. now exists before, after.
Qed.




(** Header [Officer Name] contains the variation [officer], and the first
    canonical key listing it is the presiding-officer column. *)
Example normalize_officer_name :
  normalizeHeader asciiLower (js "Officer Name") headerNormalizations
  = Some (js "पीठासीन अधिकारी")
  /\ variationScore asciiLower (asciiLower (trim (js "Officer Name"))) (js "officer")
     = 50%nat
  /\ variationScore asciiLower (asciiLower (trim (js " अधिकारी "))) (js "अधिकारी")
     = 100%nat.
Proof. repeat split; vm_compute; reflexivity. Qed.

(** ** Migration orchestrator *)

Lemma processRecord_resolved (svc : IdentityService) (template : Template)
  (month year : Z) (templateId createdBy : jsstring) (w : World)
  (record : CsvKpiData) :
  processRecord svc template month year templateId createdBy w record
  = match resolveRecord svc record with
    | inl msg => (Returned (StepSkipped msg), w)
    | inr (member, kpiRef, court) =>
      if entryExists w (member_userId member) month year templateId court
      then (Returned (StepSkipped (existsMessage court)), w)
      else
        match buildAndSave template w month year templateId createdBy
                           member kpiRef (recordValues record) with
        | (Returned id, w') => (Returned (StepCreated id (createdMessage court)), w')
        | (Thrown e, w') => (Thrown e, w')
        | (Unmodelled, w') => (Unmodelled, w')
        end
    end.
Proof.
  unfold processRecord, resolveRecord.
  destruct (courtName record) as [[|c court]|];
    destruct (fetchMemberByName svc (officerName record)) as [member|];
    try reflexivity.
  unfold orElse.
  destruct (find (isCourtRef (c :: court))
                 match member_kpiRef member with Some l => l | None => [] end);
    reflexivity.
Qed.

Lemma matchesRule_number (rule : ScoringRule) (v : Q) (kpiType : KpiType) :
  kpiType <> Percentage ->
  exists b, matchesRule rule (VNum v) kpiType = Returned b.
Proof.
  intros Hty. unfold matchesRule.
  destruct kpiType; try contradiction; try (eexists; reflexivity);
    destruct (rule_min rule), (rule_max rule), (rule_value rule);
    eexists; reflexivity.
Qed.

Lemma firstMatching_number (rules : list ScoringRule) (v : Q) (kpiType : KpiType) :
  kpiType <> Percentage ->
  exists s, firstMatching rules (VNum v) kpiType = Returned s.
Proof.
  intros Hty. induction rules as [|rule rest IH]; cbn [firstMatching].
  - now exists 0.
  - destruct (matchesRule_number rule v kpiType Hty) as [b ->]. cbn [bind].
    destruct b; [now exists (rule_score rule) | exact IH].
Qed.

Lemma validateValueByType_modelled (item : TemplateItem) (value : Value) :
  validateValueByType item value <> Unmodelled.
Proof.
  unfold validateValueByType.
  destruct (item_kpiType item), value as [v|s]; try discriminate;
    try (destruct (num_ltb v 0); discriminate);
    destruct (num_ltb v 0 || num_ltb _ v); discriminate.
Qed.

Lemma calculateScore_number (item : TemplateItem) (v : Q) :
  (item_kpiType item = Percentage -> thresholdShaped item) ->
  exists s, calculateScore item (VNum v) = Returned s.
Proof.
  intros Hshape.
  destruct (item_kpiType item) eqn:Hty;
    try (unfold calculateScore; rewrite Hty;
         apply firstMatching_number; discriminate).
  - rewrite (calculateScore_percentage _ _ Hty (Hshape eq_refl)). eauto.
  - unfold calculateScore. rewrite Hty. eauto.
Qed.

Lemma validateAndCalculateScores_numbers (template : Template)
  (values : list RawValue) :
  wellShaped template ->
  Forall (fun raw => exists v, raw_value raw = VNum v) values ->
  validateAndCalculateScores template values <> Unmodelled.
Proof.
  intros Hshape. induction 1 as [|raw rest [v Hv] _ IH];
    cbn [validateAndCalculateScores]; [discriminate|].
  destruct (findItem template (raw_name raw)) as [item|] eqn:Hfind; [|discriminate].
  pose proof (validateValueByType_modelled item (raw_value raw)) as Hval.
  destruct (validateValueByType item (raw_value raw)) as [[]| |];
    cbn [bind]; try discriminate; try contradiction.
  apply find_some in Hfind as [Hin _].
  unfold wellShaped in Hshape. rewrite Forall_forall in Hshape.
  destruct (calculateScore_number item v (Hshape _ Hin)) as [s Hs].
  rewrite Hv, Hs. cbn [bind].
  destruct (validateAndCalculateScores template rest); cbn [bind];
    try discriminate; contradiction.
Qed.

Lemma recordValues_numbers (record : CsvKpiData) :
  Forall (fun raw => exists v, raw_value raw = VNum v) (recordValues record).
Proof.
  unfold recordValues. apply Forall_forall. intros raw Hin.
  apply in_map_iff in Hin as (kv & <- & _). now exists (snd kv).
Qed.

Lemma buildAndSave_modelled (template : Template) (w : World) (month year : Z)
  (templateId createdBy : jsstring) (member : Member) (kpiRef : KpiRef)
  (record : CsvKpiData) :
  wellShaped template ->
  fst (buildAndSave template w month year templateId createdBy member kpiRef
                    (recordValues record)) <> Unmodelled.
Proof.
  intros Hshape. unfold buildAndSave.
  pose proof (validateAndCalculateScores_numbers template _ Hshape
                (recordValues_numbers record)) as Hv.
  destruct (validateAndCalculateScores template (recordValues record));
    cbn [fst]; try discriminate; try contradiction.
  unfold save. destruct (schemaErrors _); cbn [fst]; discriminate.
Qed.

Lemma processRecord_modelled (svc : IdentityService) (template : Template)
  (month year : Z) (templateId createdBy : jsstring) (w : World)
  (record : CsvKpiData) :
  wellShaped template ->
  fst (processRecord svc template month year templateId createdBy w record)
  <> Unmodelled.
Proof.
  intros Hshape. rewrite processRecord_resolved.
  destruct (resolveRecord svc record) as [msg|[[member kpiRef] court]];
    [discriminate|].
  destruct (entryExists w (member_userId member) month year templateId court);
    [discriminate|].
  pose proof (buildAndSave_modelled template w month year templateId createdBy
                member kpiRef record Hshape) as Hb.
  destruct (buildAndSave template w month year templateId createdBy member
                         kpiRef (recordValues record)) as [[id|e|] w'];
    cbn [fst] in *; try discriminate; contradiction.
Qed.

(** Each record adds one to exactly one counter and leaves [totalRecords]. *)
Lemma processRecords_counts (svc : IdentityService) (template : Template)
  (month year : Z) (templateId createdBy : jsstring) (csvData : list CsvKpiData) :
  forall result w res w',
    processRecords svc template month year templateId createdBy csvData result w
    = Returned (res, w') ->
    totalRecords res = totalRecords result
    /\ counted res = (counted result + List.length csvData)%nat.
Proof.
  induction csvData as [|record rest IH]; intros result w res w' H;
    cbn [processRecords] in H.
  - injection H as <- <-. cbn [List.length]. split; [reflexivity | lia].
  - destruct (processRecord svc template month year templateId createdBy w record)
      as [[[msg|id msg]|e|] w1]; try discriminate;
      apply IH in H as [Ht Hc]; rewrite Ht, Hc;
      unfold counted; cbn [totalRecords successfulEntries failedEntries
                           skippedEntries countSkipped countSuccessful
                           countFailed List.length];
      (split; [reflexivity | lia]).
Qed.

Lemma processRecords_returns (svc : IdentityService) (template : Template)
  (month year : Z) (templateId createdBy : jsstring) (csvData : list CsvKpiData) :
  wellShaped template ->
  forall result w,
  exists res w',
    processRecords svc template month year templateId createdBy csvData result w
    = Returned (res, w').
Proof.
  intros Hshape. induction csvData as [|record rest IH]; intros result w;
    cbn [processRecords]; [now eauto|].
  pose proof (processRecord_modelled svc template month year templateId createdBy
                w record Hshape) as Hm.
  destruct (processRecord svc template month year templateId createdBy w record)
    as [[[msg|id msg]|e|] w1]; cbn [fst] in Hm; try apply IH.
  contradiction.
Qed.

Lemma processRecords_app (svc : IdentityService) (template : Template)
  (month year : Z) (templateId createdBy : jsstring) (l1 l2 : list CsvKpiData) :
  forall result w,
    processRecords svc template month year templateId createdBy (l1 ++ l2) result w
    = (x <- processRecords svc template month year templateId createdBy l1 result w ;;
       processRecords svc template month year templateId createdBy l2 (fst x) (snd x)).
Proof.
  induction l1 as [|record rest IH]; intros result w; [reflexivity|].
  cbn [app processRecords].
  destruct (processRecord svc template month year templateId createdBy w record)
    as [[[msg|id msg]|e|] w1]; try apply IH. reflexivity.
Qed.

Lemma processRecords_one (svc : IdentityService) (template : Template)
  (month year : Z) (templateId createdBy : jsstring) (record : CsvKpiData)
  (result : MigrationResult) (w : World) (res : MigrationResult) (w' : World) :
  processRecords svc template month year templateId createdBy [record] result w
  = Returned (res, w') ->
  totalRecords res = totalRecords result
  /\ ((successfulEntries res, failedEntries res, skippedEntries res)
      = (S (successfulEntries result), failedEntries result, skippedEntries result)
      \/ (successfulEntries res, failedEntries res, skippedEntries res)
         = (successfulEntries result, S (failedEntries result), skippedEntries result)
      \/ (successfulEntries res, failedEntries res, skippedEntries res)
         = (successfulEntries result, failedEntries result, S (skippedEntries result))).
Proof.
  cbn [processRecords].
  destruct (processRecord svc template month year templateId createdBy w record)
    as [[[msg|id msg]|e|] w1]; try discriminate; intros [= <- <-];
    (split; [reflexivity|]); cbn; auto.
Qed.

Lemma createKpiEntryFromCsvData_counts (templates : list Template)
  (svc : IdentityService) (csvData : list CsvKpiData) (month year : Z)
  (templateId createdBy : jsstring) (w : World) (res : MigrationResult)
  (w' : World) :
  createKpiEntryFromCsvData templates svc csvData month year templateId
                            createdBy w = Returned (res, w') ->
  totalRecords res = List.length csvData
  /\ totalRecords res
     = (successfulEntries res + failedEntries res + skippedEntries res)%nat.
Proof.
  intros H. unfold createKpiEntryFromCsvData in H.
  destruct (findTemplateById templates templateId) as [template|];
    [|discriminate].
  apply processRecords_counts in H as [Ht Hc].
  unfold counted in Hc. cbn in Ht, Hc. split; [exact Ht | lia].
Qed.

(** C6: whenever [createKpiEntryFromCsvData] returns, its result has
    [totalRecords] equal to the number of records and to the sum of the
    three counters; it does return once the template is found and its
    percentage rules carry numeric values; each record adds one to exactly
    one of the three counters; and the records after any prefix of the
    batch are processed whatever happened to that prefix, a thrown error
    being counted as a failure. *)
Theorem migration_counters_partition (templates : list Template)
  (svc : IdentityService) (csvData : list CsvKpiData) (month year : Z)
  (templateId createdBy : jsstring) (w : World) :
  (forall res w',
     createKpiEntryFromCsvData templates svc csvData month year templateId
                               createdBy w = Returned (res, w') ->
     totalRecords res = List.length csvData
     /\ totalRecords res
        = (successfulEntries res + failedEntries res + skippedEntries res)%nat)
  /\ (forall template,
        findTemplateById templates templateId = Some template ->
        wellShaped template ->
        exists res w',
          createKpiEntryFromCsvData templates svc csvData month year templateId
                                    createdBy w = Returned (res, w')
          /\ totalRecords res
             = (successfulEntries res + failedEntries res + skippedEntries res)%nat)
  /\ (forall template record result w0 res w',
        processRecords svc template month year templateId createdBy [record]
                       result w0 = Returned (res, w') ->
        totalRecords res = totalRecords result
        /\ ((successfulEntries res, failedEntries res, skippedEntries res)
            = (S (successfulEntries result), failedEntries result,
               skippedEntries result)
            \/ (successfulEntries res, failedEntries res, skippedEntries res)
               = (successfulEntries result, S (failedEntries result),
                  skippedEntries result)
            \/ (successfulEntries res, failedEntries res, skippedEntries res)
               = (successfulEntries result, failedEntries result,
                  S (skippedEntries result))))
  /\ (forall template l1 l2 result w0,
        processRecords svc template month year templateId createdBy (l1 ++ l2)
                       result w0
        = (x <- processRecords svc template month year templateId createdBy l1
                               result w0 ;;
           processRecords svc template month year templateId createdBy l2
                          (fst x) (snd x)))
  /\ (forall template record rest result w0 e w1,
        processRecord svc template month year templateId createdBy w0 record
        = (Thrown e, w1) ->
        processRecords svc template month year templateId createdBy
                       (record :: rest) result w0
        = processRecords svc template month year templateId createdBy rest
                         (countFailed result (officerName record) e) w1).
Proof.
  assert (Hinv := createKpiEntryFromCsvData_counts templates svc csvData month
                    year templateId createdBy w).
  split; [exact Hinv|]. split; [|split; [|split]].
  - intros template Hfind Hshape.
    destruct (processRecords_returns svc template month year templateId createdBy
                csvData Hshape (mkResult (List.length csvData) 0 0 0 [] []) w)
      as (res & w' & Hrun).
    exists res, w'.
    assert (Hc : createKpiEntryFromCsvData templates svc csvData month year
                   templateId createdBy w = Returned (res, w')).
    { unfold createKpiEntryFromCsvData. now rewrite Hfind. }
    split; [exact Hc | exact (proj2 (Hinv _ _ Hc))].
  - intros template record result w0 res w'. apply processRecords_one.
  - intros template l1 l2 result w0. apply processRecords_app.
  - intros template record rest result w0 e w1 H. cbn [processRecords].
    now rewrite H.
Qed.

Lemma exampleTemplate_wellShaped : wellShaped exampleTemplate.
Proof.
  repeat constructor; try discriminate.
Qed.

Lemma migration_counters_partition_witness :
  exists res w',
    createKpiEntryFromCsvData [exampleTemplate] exampleIdentity
      [recordCreated; recordUnknownOfficer; recordUnknownItem]
      4 2024 (js "tpl-1") (js "admin") emptyWorld = Returned (res, w')
    /\ totalRecords res
       = (successfulEntries res + failedEntries res + skippedEntries res)%nat.
Proof.
  apply (proj1 (proj2 (migration_counters_partition [exampleTemplate]
                  exampleIdentity
                  [recordCreated; recordUnknownOfficer; recordUnknownItem]
                  4 2024 (js "tpl-1") (js "admin") emptyWorld)) exampleTemplate).
  - reflexivity.
  - exact exampleTemplate_wellShaped.
Defined.

(** One created, one failed and one skipped record in one batch. *)
Example migration_batch_mixed :
  match createKpiEntryFromCsvData [exampleTemplate] exampleIdentity
          [recordCreated; recordUnknownOfficer; recordUnknownItem]
          4 2024 (js "tpl-1") (js "admin") emptyWorld with
  | Returned (res, w') =>
    (totalRecords res, successfulEntries res, failedEntries res,
     skippedEntries res, List.length (entries w'))
    = (3, 1, 1, 1, 1)%nat
  | _ => False
  end.
Proof. vm_compute. reflexivity. Qed.

(** *** The store only grows, by generated entries *)

Lemma entryExists_entries (w w' : World) (createdFor : jsstring) (month year : Z)
  (templateId : jsstring) (court : option jsstring) :
  entries w = entries w' ->
  entryExists w createdFor month year templateId court
  = entryExists w' createdFor month year templateId court.
Proof.
  intros H. unfold entryExists. now rewrite H.
Qed.

Lemma entryExists_grows (w w' : World) (more : list KpiEntry)
  (createdFor : jsstring) (month year : Z) (templateId : jsstring)
  (court : option jsstring) :
  entries w' = entries w ++ more ->
  entryExists w createdFor month year templateId court = true ->
  entryExists w' createdFor month year templateId court = true.
Proof.
  intros H. unfold entryExists. rewrite H, existsb_app. intros ->. reflexivity.
Qed.

Lemma buildAndSave_entries (template : Template) (w : World) (month year : Z)
  (templateId createdBy : jsstring) (member : Member) (kpiRef : KpiRef)
  (values : list RawValue) (o : Outcome N) (w' : World) :
  buildAndSave template w month year templateId createdBy member kpiRef values
  = (o, w') ->
  match o with
  | Returned id =>
    exists validated,
      validateAndCalculateScores template values = Returned validated
      /\ id = idCounter w
      /\ entries w'
         = entries w
           ++ [mkEntry id month year templateId kpiRef validated Generated
                       (num_sum (map sv_score validated)) (orSystem createdBy)
                       (member_userId member)]
  | _ => entries w' = entries w
  end.
Proof.
  unfold buildAndSave, save.
  destruct (validateAndCalculateScores template values) as [validated| |].
  - destruct (schemaErrors _); intros [= <- <-]; cbn [entries]; eauto.
  - now intros [= <- <-].
  - now intros [= <- <-].
Qed.

Lemma buildAndSave_thrown_again (template : Template) (w w2 : World)
  (month year : Z) (templateId createdBy : jsstring) (member : Member)
  (kpiRef : KpiRef) (values : list RawValue) (e : ErrorMsg) (w' : World) :
  buildAndSave template w month year templateId createdBy member kpiRef values
  = (Thrown e, w') ->
  exists w2',
    buildAndSave template w2 month year templateId createdBy member kpiRef values
    = (Thrown e, w2')
    /\ entries w2' = entries w2.
Proof.
  unfold buildAndSave, save.
  destruct (validateAndCalculateScores template values) as [validated| |].
  - unfold schemaErrors. cbn [entry_month entry_year entry_templateId entry_kpiRef
                              entry_values entry_createdBy entry_createdFor].
    match goal with |- context [match ?x with [] => _ | _ => _ end] =>
      destruct x end; [discriminate|].
    intros [= <- <-]. eexists. split; reflexivity.
  - intros [= <- <-]. eexists. split; reflexivity.
  - discriminate.
Qed.

Lemma resolveRecord_court_value (svc : IdentityService) (record : CsvKpiData)
  (member : Member) (kpiRef : KpiRef) (court : jsstring) :
  resolveRecord svc record = inr (member, kpiRef, Some court) ->
  ref_label kpiRef = js "court" /\ ref_value kpiRef = court
  /\ In kpiRef (orElse (member_kpiRef member) [])
  /\ courtName record = Some court /\ court <> []
  /\ fetchMemberByName svc (officerName record) = Some member.
Proof.
  unfold resolveRecord.
  destruct (courtName record) as [[|c cs]|];
    destruct (fetchMemberByName svc (officerName record)) as [m|];
    try discriminate.
  destruct (find (isCourtRef (c :: cs)) (orElse (member_kpiRef m) []))
    as [ref|] eqn:Ef; [|discriminate].
  intros [= <- <- <-]. apply find_some in Ef as [Hin Href].
  unfold isCourtRef in Href. apply andb_true_iff in Href as [Hl Hv].
  apply jseqb_eq in Hl, Hv. repeat split; auto. discriminate.
Qed.

(** The entry a record creates is found by the record's own duplicate check. *)
Lemma created_entry_found (svc : IdentityService) (record : CsvKpiData)
  (member : Member) (kpiRef : KpiRef) (court : option jsstring)
  (w' : World) (before : list KpiEntry) (id : N) (month year : Z)
  (templateId createdBy : jsstring) (validated : list ScoredValue) (total : Q) :
  resolveRecord svc record = inr (member, kpiRef, court) ->
  entries w'
  = before ++ [mkEntry id month year templateId kpiRef validated Generated total
                       createdBy (member_userId member)] ->
  entryExists w' (member_userId member) month year templateId court = true.
Proof.
  intros Hres Hent. unfold entryExists. rewrite Hent, existsb_app.
  apply orb_true_iff. right. cbn [existsb entry_createdFor entry_month entry_year
                                  entry_templateId entry_kpiRef].
  rewrite !jseqb_refl, !Z.eqb_refl. cbn [andb]. rewrite orb_false_r.
  destruct court as [c|]; [|reflexivity].
  apply resolveRecord_court_value in Hres as (_ & -> & _). apply jseqb_refl.
Qed.

Lemma processRecord_extends (svc : IdentityService) (template : Template)
  (month year : Z) (templateId createdBy : jsstring) (w : World)
  (record : CsvKpiData) (o : Outcome StepResult) (w' : World) :
  processRecord svc template month year templateId createdBy w record = (o, w') ->
  exists added, entries w' = entries w ++ added
                /\ Forall (fun e => entry_status e = Generated) added.
Proof.
  rewrite processRecord_resolved.
  destruct (resolveRecord svc record) as [msg|[[member kpiRef] court]].
  - intros [= <- <-]. exists []. now rewrite app_nil_r.
  - destruct (entryExists w (member_userId member) month year templateId court).
    + intros [= <- <-]. exists []. now rewrite app_nil_r.
    + destruct (buildAndSave template w month year templateId createdBy member
                             kpiRef (recordValues record)) as [ob wb] eqn:Eb.
      apply buildAndSave_entries in Eb.
      destruct ob as [id|e|]; intros [= <- <-].
      * destruct Eb as (validated & _ & _ & ->). eexists. split; [reflexivity|].
        now repeat constructor.
      * exists []. now rewrite app_nil_r.
      * exists []. now rewrite app_nil_r.
Qed.

Lemma processRecords_extends (svc : IdentityService) (template : Template)
  (month year : Z) (templateId createdBy : jsstring) (csvData : list CsvKpiData) :
  forall result w res w',
    processRecords svc template month year templateId createdBy csvData result w
    = Returned (res, w') ->
    exists added, entries w' = entries w ++ added
                  /\ Forall (fun e => entry_status e = Generated) added.
Proof.
  induction csvData as [|record rest IH]; intros result w res w' H;
    cbn [processRecords] in H.
  - injection H as <- <-. exists []. now rewrite app_nil_r.
  - destruct (processRecord svc template month year templateId createdBy w record)
      as [o w1] eqn:Estep.
    apply processRecord_extends in Estep as (a1 & Ha1 & Hg1).
    destruct o as [[msg|id msg]|e|]; try discriminate;
      apply IH in H as (a2 & Ha2 & Hg2);
      exists (a1 ++ a2); rewrite Ha2, Ha1, app_assoc;
      (split; [reflexivity | now apply Forall_app]).
Qed.

(** A record whose key already has an entry is skipped and the store is
    left as it is. *)
Lemma existing_entry_is_skipped (svc : IdentityService) (template : Template)
  (month year : Z) (templateId createdBy : jsstring) (w : World)
  (record : CsvKpiData) (member : Member) (kpiRef : KpiRef)
  (court : option jsstring) :
  resolveRecord svc record = inr (member, kpiRef, court) ->
  entryExists w (member_userId member) month year templateId court = true ->
  processRecord svc template month year templateId createdBy w record
  = (Returned (StepSkipped (existsMessage court)), w).
Proof.
  intros Hres Hex. now rewrite processRecord_resolved, Hres, Hex.
Qed.

(** *** Running the migration again *)

Ltac counters :=
  cbn [totalRecords successfulEntries failedEntries skippedEntries
       countSkipped countSuccessful countFailed] in *.

Lemma processRecords_again (svc : IdentityService) (template : Template)
  (month year : Z) (templateId createdBy : jsstring) (csvData : list CsvKpiData) :
  forall resA wi res1 w1,
    processRecords svc template month year templateId createdBy csvData resA wi
    = Returned (res1, w1) ->
    forall resB w,
      entries w = entries w1 ->
      exists res2 w2,
        processRecords svc template month year templateId createdBy csvData resB w
        = Returned (res2, w2)
        /\ entries w2 = entries w1
        /\ successfulEntries res2 = successfulEntries resB
        /\ (successfulEntries res1 + skippedEntries res1 + skippedEntries resB
            <= skippedEntries res2 + successfulEntries resA + skippedEntries resA)%nat
        /\ (failedEntries res2 + failedEntries resA
            <= failedEntries res1 + failedEntries resB)%nat.
Proof.
  induction csvData as [|record rest IH]; intros resA wi res1 w1 H resB w Hw.
  - cbn [processRecords] in *. injection H as <- <-.
    exists resB, w. repeat split; auto; lia.
  - cbn [processRecords] in *. rewrite processRecord_resolved in H.
    rewrite processRecord_resolved.
    destruct (resolveRecord svc record) as [msg|[[member kpiRef] court]] eqn:Eres.
    + destruct (IH _ _ _ _ H (countSkipped resB (officerName record) msg) w Hw)
        as (res2 & w2 & Hrun & He & Hs & H1 & H2).
      exists res2, w2. counters. repeat split; auto; lia.
    + destruct (entryExists wi (member_userId member) month year templateId court)
        eqn:Eex.
      * destruct (processRecords_extends _ _ _ _ _ _ _ _ _ _ _ H) as (added & Hadd & _).
        rewrite (entryExists_grows wi w added) by congruence.
        destruct (IH _ _ _ _ H
                    (countSkipped resB (officerName record) (existsMessage court))
                    w Hw)
          as (res2 & w2 & Hrun & He & Hs & H1 & H2).
        exists res2, w2. counters. repeat split; auto; lia.
      * destruct (buildAndSave template wi month year templateId createdBy member
                               kpiRef (recordValues record)) as [ob wb] eqn:Eb.
        destruct ob as [id|e|]; [| |discriminate].
        -- pose proof (buildAndSave_entries _ _ _ _ _ _ _ _ _ _ _ Eb)
             as (validated & _ & _ & Hwb).
           destruct (processRecords_extends _ _ _ _ _ _ _ _ _ _ _ H)
             as (added & Hadd & _).
           pose proof (created_entry_found _ _ _ _ _ _ _ _ _ _ _ _ _ _ Eres Hwb)
             as Hfound.
           rewrite (entryExists_grows wb w added) by congruence.
           destruct (IH _ _ _ _ H
                       (countSkipped resB (officerName record) (existsMessage court))
                       w Hw)
             as (res2 & w2 & Hrun & He & Hs & H1 & H2).
           exists res2, w2. counters. repeat split; auto; lia.
        -- destruct (entryExists w (member_userId member) month year templateId
                                 court).
           ++ destruct (IH _ _ _ _ H
                          (countSkipped resB (officerName record)
                                        (existsMessage court)) w Hw)
                as (res2 & w2 & Hrun & He & Hs & H1 & H2).
              exists res2, w2. counters. repeat split; auto; lia.
           ++ destruct (buildAndSave_thrown_again _ _ w _ _ _ _ _ _ _ _ _ Eb)
                as (w2' & -> & Hw2').
              destruct (IH _ _ _ _ H
                          (countFailed resB (officerName record) e) w2'
                          ltac:(congruence))
                as (res2 & w2 & Hrun & He & Hs & H1 & H2).
              exists res2, w2. counters. repeat split; auto; lia.
Qed.

Lemma createKpiEntryFromCsvData_again (templates : list Template)
  (svc : IdentityService) (csvData : list CsvKpiData) (month year : Z)
  (templateId createdBy : jsstring) (w0 : World) (res1 : MigrationResult)
  (w1 : World) :
  createKpiEntryFromCsvData templates svc csvData month year templateId
                            createdBy w0 = Returned (res1, w1) ->
  exists res2 w2,
    createKpiEntryFromCsvData templates svc csvData month year templateId
                              createdBy w1 = Returned (res2, w2)
    /\ entries w2 = entries w1
    /\ successfulEntries res2 = 0%nat
    /\ totalRecords res2 = totalRecords res1
    /\ (successfulEntries res1 + skippedEntries res1 <= skippedEntries res2)%nat
    /\ (failedEntries res2 <= failedEntries res1)%nat
    /\ (skippedEntries res2 + failedEntries res2)%nat = totalRecords res2.
Proof.
  intros H.
  pose proof (createKpiEntryFromCsvData_counts _ _ _ _ _ _ _ _ _ _ H) as [Ht1 _].
  unfold createKpiEntryFromCsvData in *.
  destruct (findTemplateById templates templateId) as [template|]; [|discriminate].
  destruct (processRecords_again _ _ _ _ _ _ _ _ _ _ _ H
              (mkResult (List.length csvData) 0 0 0 [] []) w1 eq_refl)
    as (res2 & w2 & Hrun & He & Hs & H1 & H2).
  exists res2, w2. counters.
  pose proof (processRecords_counts _ _ _ _ _ _ _ _ _ _ _ Hrun) as [Ht2 Hc2].
  unfold counted in Hc2. counters.
  repeat split; auto; try lia; congruence.
Qed.

(** C5 (as amended): a second [migrateCsvData] with the same arguments, run
    on the store the first one left, returns, stores no further entry,
    creates none, counts as skipped every record the first run created or
    skipped, and fails at most as many records as the first run; so the
    second run skips every record as soon as the first run had no failure. *)
Theorem second_migration_adds_no_entry (toLowerCase : jsstring -> jsstring)
  (toNumber : jsstring -> option Q) (templates : list Template)
  (svc : IdentityService) (csvContent : jsstring) (month year : Z)
  (templateId departmentSlug role createdBy : jsstring)
  (w0 : World) (res1 : MigrationResult) (w1 : World) :
  migrateCsvData toLowerCase toNumber templates svc csvContent month year
                 templateId departmentSlug role createdBy w0
  = Returned (res1, w1) ->
  exists res2 w2,
    migrateCsvData toLowerCase toNumber templates svc csvContent month year
                   templateId departmentSlug role createdBy w1
    = Returned (res2, w2)
    /\ entries w2 = entries w1
    /\ successfulEntries res2 = 0%nat
    /\ totalRecords res2 = totalRecords res1
    /\ (successfulEntries res1 + skippedEntries res1 <= skippedEntries res2)%nat
    /\ (failedEntries res2 <= failedEntries res1)%nat
    /\ (skippedEntries res2 + failedEntries res2)%nat = totalRecords res2
    /\ (failedEntries res1 = 0%nat -> skippedEntries res2 = totalRecords res2).
Proof.
  unfold migrateCsvData.
  destruct (parseCsvData toLowerCase toNumber csvContent departmentSlug role)
    as [[|record rest]| |]; try discriminate.
  - intros [= <- <-]. eexists. eexists. split; [reflexivity|].
    counters. repeat split; auto.
  - intros H.
    destruct (createKpiEntryFromCsvData_again _ _ _ _ _ _ _ _ _ _ H)
      as (res2 & w2 & Hrun & He & Hs & Ht & H1 & H2 & H3).
    exists res2, w2. repeat split; auto. intros Hf. lia.
Qed.

Lemma second_migration_adds_no_entry_witness :
  exists res2 w2,
    exampleMigrate (js "tpl-2") (snd exampleFirstRun) = Returned (res2, w2)
    /\ entries w2 = entries (snd exampleFirstRun)
    /\ successfulEntries res2 = 0%nat
    /\ totalRecords res2 = totalRecords (fst exampleFirstRun)
    /\ (successfulEntries (fst exampleFirstRun)
        + skippedEntries (fst exampleFirstRun) <= skippedEntries res2)%nat
    /\ (failedEntries res2 <= failedEntries (fst exampleFirstRun))%nat
    /\ (skippedEntries res2 + failedEntries res2)%nat = totalRecords res2
    /\ (failedEntries (fst exampleFirstRun) = 0%nat ->
        skippedEntries res2 = totalRecords res2).
Proof.
  apply (second_migration_adds_no_entry asciiLower decimalNumber
           [exampleTemplate; tehsildarTemplate] exampleIdentity exampleCsv
           4 2024 (js "tpl-2") (js "revenue-department") (js "tehsildar")
           (js "admin") emptyWorld (fst exampleFirstRun) (snd exampleFirstRun)).
  vm_compute. reflexivity.
Defined.

(** The first run creates the entry and the second run skips the record. *)
Example migration_twice_skips :
  (successfulEntries (fst exampleFirstRun), List.length (entries (snd exampleFirstRun)))
  = (1, 1)%nat
  /\ match exampleMigrate (js "tpl-2") (snd exampleFirstRun) with
     | Returned (res2, w2) =>
       (totalRecords res2, skippedEntries res2, List.length (entries w2))
       = (1, 1, 1)%nat
     | _ => False
     end.
Proof. split; vm_compute; reflexivity. Qed.

(** C5, the claim as stated: when the template lacks the KPI of the CSV the
    record fails in the first run and fails again in the second, so the
    second run skips 0 of its 1 records. *)
Lemma second_migration_fails_again :
  exampleMigrate (js "tpl-1") emptyWorld = Returned exampleFailedRun
  /\ failedEntries (fst exampleFailedRun) = 1%nat
  /\ exists res2 w2,
       exampleMigrate (js "tpl-1") (snd exampleFailedRun) = Returned (res2, w2)
       /\ totalRecords res2 = 1%nat
       /\ skippedEntries res2 = 0%nat
       /\ failedEntries res2 = 1%nat
       /\ skippedEntries res2 <> totalRecords res2.
Proof.
  split; [vm_compute; reflexivity|]. split; [vm_compute; reflexivity|].
  eexists. eexists. split; [vm_compute; reflexivity|].
  repeat split; try (vm_compute; reflexivity). vm_compute. discriminate.
Qed.

(** *** Identity resolution of a record with a court *)




(** ** Entry status *)






(** ** Rankings *)

Lemma addRanks_unranked (i : nat) (l : list (EmployeeScore * Q)) :
  map unranked (addRanks i l) = l.
Proof.
  revert i. induction l as [|[e p] l IH]; intros i; [reflexivity|].
  cbn [addRanks map]. rewrite IH. reflexivity.
Qed.

Lemma addRanks_nth (l : list (EmployeeScore * Q)) :
  forall i n rk, nth_error (addRanks i l) n = Some rk -> rk_rank rk = S (i + n).
Proof.
  induction l as [|[e p] l IH]; intros i n rk; cbn [addRanks].
  - destruct n; discriminate.
  - destruct n as [|n]; cbn [nth_error].
    + intros [= <-]. cbn. lia.
    + intros H. apply IH in H. lia.
Qed.

Lemma addRanks_length (i : nat) (l : list (EmployeeScore * Q)) :
  List.length (addRanks i l) = List.length l.
Proof.
  rewrite <- (addRanks_unranked i l) at 2. now rewrite length_map.
Qed.

Lemma sorted_by_map {A B} (f : A -> B) (keyA : A -> Q) (keyB : B -> Q)
  (l : list A) :
  (forall a, keyB (f a) = keyA a) ->
  StronglySorted (descending keyB) (map f l) ->
  StronglySorted (descending keyA) l.
Proof.
  intros Hkey. induction l as [|a l IH]; cbn [map]; intros H; [constructor|].
  inversion H as [|? ? Hs Hall]; subst. constructor; [now apply IH|].
  rewrite Forall_map in Hall. eapply Forall_impl; [|exact Hall].
  intros b. unfold descending. now rewrite !Hkey.
Qed.

Lemma jsSlice_window {A} (l : list A) (page limit : Z) :
  (1 <= page)%Z -> (0 <= limit)%Z ->
  jsSlice l ((page - 1) * limit) ((page - 1) * limit + limit)
  = firstn (Z.to_nat limit) (skipn (Z.to_nat ((page - 1) * limit)) l).
Proof.
  intros Hp Hl. unfold jsSlice.
  set (s := ((page - 1) * limit)%Z).
  assert (Hs : (0 <= s)%Z) by (unfold s; nia).
  destruct (s <? 0)%Z eqn:E1; [apply Z.ltb_lt in E1; lia|].
  destruct (s + limit <? 0)%Z eqn:E2; [apply Z.ltb_lt in E2; lia|].
  set (len := Z.of_nat (List.length l)).
  destruct (Z_le_gt_dec len s) as [Hge | Hlt].
  - rewrite (Z.min_r s len), (Z.min_r (s + limit) len) by lia.
    rewrite Z.sub_diag. cbn [Z.to_nat firstn].
    rewrite (skipn_all2 l) by (unfold len in Hge; lia).
    now rewrite firstn_nil.
  - rewrite (Z.min_l s len) by lia.
    destruct (Z_le_gt_dec (s + limit) len) as [Hfit | Hover].
    + rewrite (Z.min_l (s + limit) len) by lia. f_equal. lia.
    + rewrite (Z.min_r (s + limit) len) by lia.
      rewrite !firstn_all2; [reflexivity | |];
        rewrite length_skipn; unfold len in *; lia.
Qed.

Lemma percentageOf_formula (total maxPossible : Q) :
  (0 < maxPossible -> percentageOf total maxPossible == total / maxPossible * 100)
  /\ (maxPossible <= 0 -> percentageOf total maxPossible = 0).
Proof.
  unfold percentageOf. split; intros H.
  - apply num_ltb_true in H. rewrite H. unfold num_mul, num_div.
    now rewrite !Qred_correct.
  - apply num_ltb_false in H. now rewrite H.
Qed.

(** C9: the rankings are the employees of the filtered generated entries,
    each with percentage [total / maxPossible * 100] (0 when [maxPossible]
    is not positive), sorted by descending percentage with equal
    percentages kept in order of first appearance, ranked 1, 2, 3, ... by
    position, and the page is the slice [(page-1)*limit, (page-1)*limit +
    limit) of that full list.  With employees at 70, 50 and 90 percent,
    [limit = 2] and [page = 1] the page holds ranks 1 and 2 (90 and 70) and
    [hasNextPage] is true. *)
Theorem rankings_sorted_ranked_paged (templates : list Template) (w : World)
  (filters : StatisticsFilters) :
  let full := allRankings templates w filters in
  let page := orElse (f_page filters) 1%Z in
  let limit := orElse (f_limit filters) 50%Z in
  let r := getEmployeeRankings templates w filters in
  Permutation (map rk_employee full) (groupedEmployees templates w filters)
  /\ (forall rk, In rk full ->
        rk_percentageScore rk
        = percentageOf (emp_totalScore (rk_employee rk))
                       (emp_maxPossibleScore (rk_employee rk)))
  /\ (forall total maxPossible,
        (0 < maxPossible ->
         percentageOf total maxPossible == total / maxPossible * 100)
        /\ (maxPossible <= 0 -> percentageOf total maxPossible = 0))
  /\ StronglySorted (descending rk_percentageScore) full
  /\ (forall k,
        filter (fun ep => Qeq_bool (snd ep) k) (map unranked full)
        = filter (fun ep => Qeq_bool (snd ep) k)
                 (map withPercentage (groupedEmployees templates w filters)))
  /\ (forall i rk, nth_error full i = Some rk -> rk_rank rk = S i)
  /\ pg_total r = List.length full
  /\ pg_rankings r = jsSlice full ((page - 1) * limit) ((page - 1) * limit + limit)
  /\ ((1 <= page)%Z -> (0 <= limit)%Z ->
      pg_rankings r
      = firstn (Z.to_nat limit) (skipn (Z.to_nat ((page - 1) * limit)) full))
  /\ (let p := getEmployeeRankings [rankTemplate] rankWorld firstPageOfTwo in
      map (fun rk => (emp_createdFor (rk_employee rk), rk_percentageScore rk,
                      rk_rank rk)) (pg_rankings p)
      = [(js "emp-90", 90, 1%nat); (js "emp-70", 70, 2%nat)]
      /\ pg_total p = 3%nat
      /\ pg_hasNextPage p = true).
Proof.
  intros full page limit r.
  set (grouped := groupedEmployees templates w filters).
  assert (Hun : map unranked full = sortDesc snd (map withPercentage grouped))
    by apply addRanks_unranked.
  assert (Hslice : pg_rankings r
                   = jsSlice full ((page - 1) * limit) ((page - 1) * limit + limit))
    by reflexivity.
  repeat match goal with |- _ /\ _ => split end.
  - assert (Hemp : map rk_employee full = map fst (map unranked full))
      by (rewrite map_map; reflexivity).
    rewrite Hemp, Hun.
    rewrite (sortDesc_perm _ snd (map withPercentage grouped)).
    rewrite map_map. cbn [withPercentage fst]. now rewrite map_id.
  - intros rk Hin.
    assert (Hin' : In (unranked rk) (map withPercentage grouped)).
    { apply (Permutation_in _ (sortDesc_perm _ snd (map withPercentage grouped))).
      rewrite <- Hun.
      now apply in_map. }
    apply in_map_iff in Hin' as (e & He & _). unfold withPercentage, unranked in He.
    injection He as He1 He2. now rewrite <- He1, <- He2.
  - apply percentageOf_formula.
  - apply (sorted_by_map unranked rk_percentageScore snd); [reflexivity|].
    rewrite Hun. apply sortDesc_sorted.
  - intros k. rewrite Hun.
    exact (sortDesc_stable _ snd k (map withPercentage grouped)).
  - intros i rk H. apply addRanks_nth in H. exact H.
  - reflexivity.
  - exact Hslice.
  - intros Hp Hl. rewrite Hslice. now apply jsSlice_window.
  - cbv zeta. repeat split; vm_compute; reflexivity.
Qed.

Lemma rankings_sorted_ranked_paged_witness :
  pg_rankings (getEmployeeRankings [rankTemplate] rankWorld firstPageOfTwo)
  = firstn 2 (skipn 0 (allRankings [rankTemplate] rankWorld firstPageOfTwo)).
Proof.
  pose proof (rankings_sorted_ranked_paged [rankTemplate] rankWorld firstPageOfTwo)
    as H.
  cbv zeta in H.
  destruct H as (_ & _ & _ & _ & _ & _ & _ & _ & H & _).
  apply H; cbn; lia.
Defined.

(** ** CSV parser *)

(** For a KPI of the tehsildar list the value is read from the block at
    [2 + ordinal * 3]. *)
Lemma extractPercentage_tehsildar_block (values headers subHeaders : list jsstring)
  (kpiMapping : HeaderMapping) (kpiName : jsstring) (allKpiNames : list jsstring)
  (ordinal : nat) :
  headerIndexOf headers kpiMapping <> None ->
  indexOf (map fst (cfg_kpiMappings tehsildarConfig)) kpiName = Some ordinal ->
  extractPercentageWithMapping values headers subHeaders kpiMapping kpiName
                               allKpiNames
  = percentageAt values (2 + ordinal * 3).
Proof.
  intros Hidx Hord. unfold extractPercentageWithMapping, percentageAt.
  destruct (headerIndexOf headers kpiMapping); [|contradiction].
  assert (Hcfg : getKey csvParserConfigs (js "revenue-department-tehsildar")
                 = Some tehsildarConfig) by (vm_compute; reflexivity).
  rewrite Hcfg, Hord. reflexivity.
Qed.

Example extractPercentage_96_of_100 :
  percentageAt (split comma (js "राम,तहसील रायपुर,100,96,4")) 2 = Some 96
  /\ percentageAt (split comma (js "राम,तहसील रायपुर,0,0,0")) 2 = None
  /\ percentageAt (split comma (js "राम,तहसील रायपुर,3,1,2")) 2 = Some (3333 # 100)
  /\ percentageAt (split comma (js "राम,तहसील रायपुर,50,60,0")) 2 = Some 100.
Proof. repeat split; vm_compute; reflexivity. Qed.

(** C2, at the failing input: the first KPI of the SDM configuration has
    ordinal 0 in the SDM list, its block at index 2 holds 100 registered and
    96 disposed, and the positional rule gives 96; the extractor looks the
    KPI up in the tehsildar list instead, finds it nowhere and answers
    null, so the SDM CSV parses to no record at all. *)
Theorem sdm_percentage_not_extracted :
  getKey csvParserConfigs (configKeyOf (js "revenue-department") (js "sdm"))
  = Some sdmConfig
  /\ indexOf (map fst (cfg_kpiMappings sdmConfig)) (js "व्यपवर्तन") = Some 0%nat
  /\ percentageAt sdmRow (2 + 0 * 3) = Some 96
  /\ option_map (fun m => getKey m (js "व्यपवर्तन"))
       (match createHeaderMapping asciiLower sdmHeaders sdmSubHeaders
                (js "revenue-department") (js "sdm") with
        | Returned m => Some m
        | _ => None
        end)
     = Some (Some sdmMapping)
  /\ indexOf (map fst (cfg_kpiMappings tehsildarConfig)) (js "व्यपवर्तन") = None
  /\ extractPercentageWithMapping sdmRow sdmHeaders sdmSubHeaders sdmMapping
       (js "व्यपवर्तन") [js "व्यपवर्तन"] = None
  /\ parseCsvData asciiLower decimalNumber sdmCsv (js "revenue-department")
       (js "sdm") = Returned [].
Proof. repeat split; vm_compute; reflexivity. Qed.

(** A line with fewer than two columns, or with no officer name in the
    officer-name column, contributes no record. *)
Lemma parseLine_skips (toNumber : jsstring -> option Q) (line : jsstring)
  (headers subHeaders : list jsstring)
  (headerMapping : list (jsstring * HeaderMapping)) (config : CsvParserConfig)
  (officerNameIndex : nat) (role : jsstring) :
  (List.length (split comma line) < 2)%nat
  \/ trimmedAt (split comma line) officerNameIndex = None ->
  parseLine toNumber line headers subHeaders headerMapping config
            officerNameIndex role = None.
Proof.
  unfold parseLine. intros [H | H].
  - apply Nat.ltb_lt in H. now rewrite H.
  - rewrite H. now destruct (List.length (split comma line) <? 2)%nat.
Qed.

(** The row loop visits every line but the first, the second included. *)
Lemma parseRows_second_line (toNumber : jsstring -> option Q)
  (line0 line1 : jsstring) (rest : list jsstring) (headers subHeaders : list jsstring)
  (headerMapping : list (jsstring * HeaderMapping)) (config : CsvParserConfig)
  (officerNameIndex : nat) (role : jsstring) (record : CsvKpiData) :
  parseLine toNumber line1 headers subHeaders headerMapping config
            officerNameIndex role = Some record ->
  exists others,
    parseRows toNumber (line0 :: line1 :: rest) headers subHeaders headerMapping
              config officerNameIndex role = record :: others.
Proof.
  intros H. unfold parseRows. cbn [skipn flat_map]. rewrite H. cbn [app].
  eexists. reflexivity.
Qed.

(** C7, at the failing input: the second line of the text (index 1) is read
    as the sub-header row and is also processed as a data row, so it
    contributes the first record of the output. *)
Theorem second_line_contributes_record :
  nth_error (split newline (trim dataOnSecondLineCsv)) 1
  = Some (js "राम,तहसील रायपुर,100,96,4")
  /\ parseCsvData asciiLower decimalNumber dataOnSecondLineCsv
       (js "revenue-department") (js "tehsildar")
     = Returned
         [mkCsvKpiData (js "राम") (Some (js "तहसील रायपुर")) [(khataVibhajan, 96)];
          mkCsvKpiData (js "श्याम") (Some (js "तहसील आरंग")) [(khataVibhajan, 50)]].
Proof. split; vm_compute; reflexivity. Qed.

(* ================================================================== *)
(** * Further properties *)

(** ** Scoring engine: domains, errors and score ranges *)

Lemma existsb_jseqb (name : jsstring) (l : list jsstring) :
  existsb (jseqb name) l = true <-> In name l.
Proof.
  rewrite existsb_exists. split.
  - intros (x & Hin & Heq). apply jseqb_eq in Heq. now subst.
  - intros Hin. exists name. split; [exact Hin | apply jseqb_refl].
Qed.

(** The domain of each KPI type, as [validateValueByType] checks it. *)
Lemma validateValueByType_domain (item : TemplateItem) (value : Value) :
  validateValueByType item value = Returned tt <->
  match item_kpiType item, value with
  | Quantitative, VNum v => 0 <= v
  | Percentage, VNum v => 0 <= v /\ v <= 100
  | Score, VNum v => 0 <= v /\ v <= item_maxMarks item
  | Binary, VStr _ | Qualitative, VStr _ => True
  | _, _ => False
  end.
Proof.
  unfold validateValueByType.
  destruct (item_kpiType item), value as [v|s];
    try (split; [discriminate | contradiction]);
    try (split; [reflexivity | discriminate]); try tauto.
  - destruct (num_ltb v 0) eqn:E.
    + apply num_ltb_true in E. split; [discriminate|].
      intros H. exfalso. apply (Qlt_not_le _ _ E H).
    + apply num_ltb_false in E. tauto.
  - destruct (num_ltb v 0) eqn:E0; cbn [orb].
    + apply num_ltb_true in E0. split; [discriminate|].
      intros [H _]. exfalso. apply (Qlt_not_le _ _ E0 H).
    + destruct (num_ltb 100 v) eqn:E1.
      * apply num_ltb_true in E1. split; [discriminate|].
        intros [_ H]. exfalso. apply (Qlt_not_le _ _ E1 H).
      * apply num_ltb_false in E0, E1. tauto.
  - destruct (num_ltb v 0) eqn:E0; cbn [orb].
    + apply num_ltb_true in E0. split; [discriminate|].
      intros [H _]. exfalso. apply (Qlt_not_le _ _ E0 H).
    + destruct (num_ltb (item_maxMarks item) v) eqn:E1.
      * apply num_ltb_true in E1. split; [discriminate|].
        intros [_ H]. exfalso. apply (Qlt_not_le _ _ E1 H).
      * apply num_ltb_false in E0, E1. tauto.
Qed.

Lemma matchesRule_validated (rule : ScoringRule) (item : TemplateItem)
  (value : Value) :
  validateValueByType item value = Returned tt ->
  item_kpiType item <> Percentage ->
  exists b, matchesRule rule value (item_kpiType item) = Returned b.
Proof.
  intros Hval Hty. apply validateValueByType_domain in Hval.
  destruct (item_kpiType item) eqn:E, value as [v|s]; try contradiction;
    try (apply matchesRule_number; discriminate);
    unfold matchesRule; eexists; reflexivity.
Qed.

Lemma firstMatching_validated (rules : list ScoringRule) (item : TemplateItem)
  (value : Value) :
  validateValueByType item value = Returned tt ->
  item_kpiType item <> Percentage ->
  exists s, firstMatching rules value (item_kpiType item) = Returned s
            /\ (s = 0 \/ exists r, In r rules /\ s = rule_score r).
Proof.
  intros Hval Hty. induction rules as [|rule rest IH]; cbn [firstMatching].
  - exists 0. split; [reflexivity | now left].
  - destruct (matchesRule_validated rule item value Hval Hty) as [b ->].
    cbn [bind]. destruct b.
    + exists (rule_score rule). split; [reflexivity|]. right.
      exists rule. split; [now left | reflexivity].
    + destruct IH as (s & Hs & Hcase). exists s. split; [exact Hs|].
      destruct Hcase as [H0 | (r & Hin & Hr)]; [now left|].
      right. exists r. split; [now right | exact Hr].
Qed.

Lemma calculateScore_validated (item : TemplateItem) (value : Value) :
  validateValueByType item value = Returned tt ->
  (item_kpiType item = Percentage -> thresholdShaped item) ->
  exists s, calculateScore item value = Returned s.
Proof.
  intros Hval Hshape.
  destruct (item_kpiType item) eqn:Hty.
  - destruct (firstMatching_validated (item_scoringRules item) item value Hval)
      as (s & Hs & _); [congruence|].
    exists s. unfold calculateScore. now rewrite Hty, <- Hs, Hty.
  - destruct (validate_percentage_number item value Hty Hval) as (v & -> & _).
    apply calculateScore_number. intros _. now apply Hshape.
  - destruct (firstMatching_validated (item_scoringRules item) item value Hval)
      as (s & Hs & _); [congruence|].
    exists s. unfold calculateScore. now rewrite Hty, <- Hs, Hty.
  - destruct (firstMatching_validated (item_scoringRules item) item value Hval)
      as (s & Hs & _); [congruence|].
    exists s. unfold calculateScore. now rewrite Hty, <- Hs, Hty.
  - apply validateValueByType_domain in Hval. rewrite Hty in Hval.
    destruct value as [v|s]; [|contradiction].
    apply calculateScore_number. intros H. congruence.
  - apply validateValueByType_domain in Hval. rewrite Hty in Hval.
    now destruct value.
Qed.

